(** * The wallet ledger of the payment app

    A shallow embedding of [apps/payment/models.py] (UserWallet,
    WalletTransaction, BankAccount), [apps/payment/services.py]
    (WalletService) and the webhook of [apps/payment/views.py], followed by
    the properties of the ledger.

    Conventions of the embedding.
    - Money columns are [DecimalField(decimal_places=2)]: a stored value is an
      integer number of cents, a [Z].  Amounts handed to the service are
      two-place decimals as well (the request serializers enforce it), so
      they are cents too.  The capacity of a column ([max_digits]) is not
      modelled.
    - The only arithmetic that leaves the cent grid is the fee estimate of
      [create_deposit_intent]; it is computed on [Decimal] (coefficient and
      number of fractional digits, as Python's decimal does for these
      magnitudes) and rounded when the row is written.
    - A wallet is keyed by its user (the relation is one-to-one).  A
      transaction's primary key is its position in the table: rows are only
      ever appended.
    - Stripe is an oracle: the customer id it hands out is a parameter of the
      service, the answer to a PaymentIntent request is an argument of the
      call. [timezone.now()] is the argument [now]. *)

From Stdlib Require Import ZArith Lia.
From stdpp Require Import base option list gmap strings.

Open Scope Z_scope.

(** ** Decimal arithmetic used by the fee estimate *)

Record Decimal := { coefficient : Z; places : nat }.

Definition dec_of_cents (c : Z) : Decimal := {| coefficient := c; places := 2 |}.

Definition rescale (d : Decimal) (p : nat) : Z :=
  coefficient d * 10 ^ Z.of_nat (p - places d).

Definition dec_mul (a b : Decimal) : Decimal :=
  {| coefficient := coefficient a * coefficient b;
     places := (places a + places b)%nat |}.

Definition dec_add (a b : Decimal) : Decimal :=
  let p := Nat.max (places a) (places b) in
  {| coefficient := rescale a p + rescale b p; places := p |}.

(** Writing a decimal into a NUMERIC(_, 2) column of the configured
    PostgreSQL backend: rounded to cents, ties away from zero. *)
Definition to_cents (d : Decimal) : Z :=
  if (places d <=? 2)%nat then rescale d 2
  else
    let q := 10 ^ Z.of_nat (places d - 2) in
    Z.sgn (coefficient d) * ((2 * Z.abs (coefficient d) + q) / (2 * q)).

(** ** models.py *)

Record UserWallet := {
  stripe_customer_id : option string;
  available_balance : Z;
  escrow_balance : Z;
  total_deposited : Z;
  total_withdrawn : Z;
  total_shipping_paid : Z;
  withdrawal_limit_daily : Z;
  withdrawal_limit_monthly : Z
}.

(** The field defaults of a new row ([get_or_create] passes
    [stripe_customer_id = None]). *)
Definition new_wallet : UserWallet :=
  {| stripe_customer_id := None;
     available_balance := 0;
     escrow_balance := 0;
     total_deposited := 0;
     total_withdrawn := 0;
     total_shipping_paid := 0;
     withdrawal_limit_daily := 100000;
     withdrawal_limit_monthly := 1000000 |}.

Definition total_balance (w : UserWallet) : Z :=
  available_balance w + escrow_balance w.

Definition can_withdraw (w : UserWallet) (amount : Z) : bool :=
  amount <=? available_balance w.

Definition can_place_in_escrow (w : UserWallet) (amount : Z) : bool :=
  amount <=? available_balance w.

Definition set_balances (w : UserWallet) (available escrow : Z) : UserWallet :=
  {| stripe_customer_id := stripe_customer_id w;
     available_balance := available;
     escrow_balance := escrow;
     total_deposited := total_deposited w;
     total_withdrawn := total_withdrawn w;
     total_shipping_paid := total_shipping_paid w;
     withdrawal_limit_daily := withdrawal_limit_daily w;
     withdrawal_limit_monthly := withdrawal_limit_monthly w |}.

(** [move_to_escrow] and [release_from_escrow] raise [ValueError] ([None])
    or give the wallet as saved. *)
Definition move_to_escrow (w : UserWallet) (amount : Z) : option UserWallet :=
  if negb (can_place_in_escrow w amount) then None
  else Some (set_balances w (available_balance w - amount)
                            (escrow_balance w + amount)).

Definition release_from_escrow (w : UserWallet) (amount : Z)
    (to_available : bool) : option UserWallet :=
  if escrow_balance w <? amount then None
  else Some (set_balances w
               (if to_available then available_balance w + amount
                else available_balance w)
               (escrow_balance w - amount)).

Inductive TransactionType :=
  | ty_deposit | ty_withdrawal | ty_escrow_deposit | ty_escrow_release
  | ty_escrow_refund | ty_shipping_payment | ty_trade_fee | ty_refund.

Inductive Status :=
  | pending | processing | completed | failed | cancelled | refunded.

#[global] Instance TransactionType_eq_dec : EqDecision TransactionType.
Proof. solve_decision. Defined.

#[global] Instance Status_eq_dec : EqDecision Status.
Proof. solve_decision. Defined.

(** The second components of [TRANSACTION_TYPES]. *)
Definition get_transaction_type_display (ty : TransactionType) : string :=
  match ty with
  | ty_deposit => "Deposit"
  | ty_withdrawal => "Withdrawal"
  | ty_escrow_deposit => "Escrow Deposit"
  | ty_escrow_release => "Escrow Release"
  | ty_escrow_refund => "Escrow Refund"
  | ty_shipping_payment => "Shipping Payment"
  | ty_trade_fee => "Trade Fee"
  | ty_refund => "Refund"
  end.

Record WalletTransaction := {
  wallet : nat;
  transaction_type : TransactionType;
  amount : Z;
  status : Status;
  description : string;
  stripe_payment_intent_id : option string;
  stripe_charge_id : option string;
  trade_id : option string;
  platform_fee : Z;
  stripe_fee : Z;
  balance_before : option Z;
  balance_after : option Z;
  completed_at : option nat
}.

Definition net_amount (t : WalletTransaction) : Z :=
  amount t - platform_fee t - stripe_fee t.

Record BankAccount := {
  bank_id : nat;
  bank_user : nat;
  bank_name : string;
  is_verified : bool;
  is_default : bool;
  is_active : bool
}.

(** ** The database *)

Record Store := {
  wallets : gmap nat UserWallet;
  transactions : list WalletTransaction;
  bank_accounts : list BankAccount
}.

Definition save_wallet (user : nat) (w : UserWallet) (s : Store) : Store :=
  {| wallets := <[user := w]> (wallets s);
     transactions := transactions s;
     bank_accounts := bank_accounts s |}.

(** [WalletTransaction.objects.create]: the new row and its key. *)
Definition create_transaction (t : WalletTransaction) (s : Store) : Store * nat :=
  ({| wallets := wallets s;
      transactions := transactions s ++ [t];
      bank_accounts := bank_accounts s |},
   length (transactions s)).

(** [t.save()] on a row that was read or created before, so that [id] is in
    range wherever the service calls it. *)
Definition save_transaction (id : nat) (t : WalletTransaction) (s : Store) : Store :=
  {| wallets := wallets s;
     transactions := <[id := t]> (transactions s);
     bank_accounts := bank_accounts s |}.

(** The row written by [objects.create] in the service: every call leaves
    the charge id, the closing snapshot and the completion time empty. *)
Definition new_transaction (user : nat) (ty : TransactionType) (amt : Z)
    (descr : string) (trade : option string) (pfee sfee : Z) (before : Z)
    : WalletTransaction :=
  {| wallet := user;
     transaction_type := ty;
     amount := amt;
     status := pending;
     description := descr;
     stripe_payment_intent_id := None;
     stripe_charge_id := None;
     trade_id := trade;
     platform_fee := pfee;
     stripe_fee := sfee;
     balance_before := Some before;
     balance_after := None;
     completed_at := None |}.

Definition set_status (t : WalletTransaction) (st : Status) : WalletTransaction :=
  {| wallet := wallet t;
     transaction_type := transaction_type t;
     amount := amount t;
     status := st;
     description := description t;
     stripe_payment_intent_id := stripe_payment_intent_id t;
     stripe_charge_id := stripe_charge_id t;
     trade_id := trade_id t;
     platform_fee := platform_fee t;
     stripe_fee := stripe_fee t;
     balance_before := balance_before t;
     balance_after := balance_after t;
     completed_at := completed_at t |}.

(** [status = 'completed'; balance_after = after; completed_at = now]. *)
Definition mark_completed (t : WalletTransaction) (after : Z) (now : nat)
    : WalletTransaction :=
  {| wallet := wallet t;
     transaction_type := transaction_type t;
     amount := amount t;
     status := completed;
     description := description t;
     stripe_payment_intent_id := stripe_payment_intent_id t;
     stripe_charge_id := stripe_charge_id t;
     trade_id := trade_id t;
     platform_fee := platform_fee t;
     stripe_fee := stripe_fee t;
     balance_before := balance_before t;
     balance_after := Some after;
     completed_at := Some now |}.

(** [stripe_charge_id = charge]. *)
Definition set_charge (t : WalletTransaction) (charge : option string)
    : WalletTransaction :=
  {| wallet := wallet t;
     transaction_type := transaction_type t;
     amount := amount t;
     status := status t;
     description := description t;
     stripe_payment_intent_id := stripe_payment_intent_id t;
     stripe_charge_id := charge;
     trade_id := trade_id t;
     platform_fee := platform_fee t;
     stripe_fee := stripe_fee t;
     balance_before := balance_before t;
     balance_after := balance_after t;
     completed_at := completed_at t |}.

(** [stripe_payment_intent_id = intent; status = 'processing']. *)
Definition mark_processing (t : WalletTransaction) (intent : string)
    : WalletTransaction :=
  {| wallet := wallet t;
     transaction_type := transaction_type t;
     amount := amount t;
     status := processing;
     description := description t;
     stripe_payment_intent_id := Some intent;
     stripe_charge_id := stripe_charge_id t;
     trade_id := trade_id t;
     platform_fee := platform_fee t;
     stripe_fee := stripe_fee t;
     balance_before := balance_before t;
     balance_after := balance_after t;
     completed_at := completed_at t |}.

(** [status = 'failed'; description += " - Error: " + str(e)]. *)
Definition mark_failed (t : WalletTransaction) (e : string) : WalletTransaction :=
  {| wallet := wallet t;
     transaction_type := transaction_type t;
     amount := amount t;
     status := failed;
     description := description t +:+ " - Error: " +:+ e;
     stripe_payment_intent_id := stripe_payment_intent_id t;
     stripe_charge_id := stripe_charge_id t;
     trade_id := trade_id t;
     platform_fee := platform_fee t;
     stripe_fee := stripe_fee t;
     balance_before := balance_before t;
     balance_after := balance_after t;
     completed_at := completed_at t |}.

(** ** services.py *)

(** The dicts the service returns, one constructor per shape; [Failure] is
    [{'success': False, 'error': ...}]. *)
Inductive Response :=
  | DepositStarted (payment_intent : string) (transaction_id : nat)
  | DepositRejected (error : string) (transaction_id : nat)
  | EscrowHeld (transaction_id : nat) (escrow : Z)
  | EscrowReleased (transaction_id : nat) (available escrow : Z)
  | ShippingPaid (transaction_id : nat) (available : Z)
  | WithdrawalStarted (transaction_id : nat) (bank_account : string)
  | Refunded (transaction_id : nat) (refund_amount : Z)
  | Failure (error : string).

Definition success (r : Response) : bool :=
  match r with
  | DepositRejected _ _ | Failure _ => false
  | _ => true
  end.

(** The result of the two completion calls: the boolean they return, or an
    exception that leaves the atomic block (which then rolls back). *)
Inductive Outcome :=
  | Return (changed : bool)
  | Raise (exc : string).

(** What [stripe.PaymentIntent.create] answers. *)
Inductive GatewayReply :=
  | IntentCreated (intent_id : string)
  | StripeError (message : string).

(** [x or default] on strings. *)
Definition or_default (x default : string) : string :=
  if decide (x = "") then default else x.

(** [not wallet.stripe_customer_id]. *)
Definition no_customer (w : UserWallet) : bool :=
  match stripe_customer_id w with
  | None => true
  | Some c => bool_decide (c = "")
  end.

Definition set_customer (w : UserWallet) (c : string) : UserWallet :=
  {| stripe_customer_id := Some c;
     available_balance := available_balance w;
     escrow_balance := escrow_balance w;
     total_deposited := total_deposited w;
     total_withdrawn := total_withdrawn w;
     total_shipping_paid := total_shipping_paid w;
     withdrawal_limit_daily := withdrawal_limit_daily w;
     withdrawal_limit_monthly := withdrawal_limit_monthly w |}.

(** Assignments to one field of the wallet object. *)
Definition set_available (w : UserWallet) (x : Z) : UserWallet :=
  {| stripe_customer_id := stripe_customer_id w;
     available_balance := x;
     escrow_balance := escrow_balance w;
     total_deposited := total_deposited w;
     total_withdrawn := total_withdrawn w;
     total_shipping_paid := total_shipping_paid w;
     withdrawal_limit_daily := withdrawal_limit_daily w;
     withdrawal_limit_monthly := withdrawal_limit_monthly w |}.

Definition set_total_deposited (w : UserWallet) (x : Z) : UserWallet :=
  {| stripe_customer_id := stripe_customer_id w;
     available_balance := available_balance w;
     escrow_balance := escrow_balance w;
     total_deposited := x;
     total_withdrawn := total_withdrawn w;
     total_shipping_paid := total_shipping_paid w;
     withdrawal_limit_daily := withdrawal_limit_daily w;
     withdrawal_limit_monthly := withdrawal_limit_monthly w |}.

Definition set_total_withdrawn (w : UserWallet) (x : Z) : UserWallet :=
  {| stripe_customer_id := stripe_customer_id w;
     available_balance := available_balance w;
     escrow_balance := escrow_balance w;
     total_deposited := total_deposited w;
     total_withdrawn := x;
     total_shipping_paid := total_shipping_paid w;
     withdrawal_limit_daily := withdrawal_limit_daily w;
     withdrawal_limit_monthly := withdrawal_limit_monthly w |}.

Definition set_total_shipping_paid (w : UserWallet) (x : Z) : UserWallet :=
  {| stripe_customer_id := stripe_customer_id w;
     available_balance := available_balance w;
     escrow_balance := escrow_balance w;
     total_deposited := total_deposited w;
     total_withdrawn := total_withdrawn w;
     total_shipping_paid := x;
     withdrawal_limit_daily := withdrawal_limit_daily w;
     withdrawal_limit_monthly := withdrawal_limit_monthly w |}.

(** [objects.get(id=..., transaction_type=ty)]. *)
Definition get_transaction_of_type (s : Store) (id : nat) (ty : TransactionType)
    : option WalletTransaction :=
  match transactions s !! id with
  | Some t => if decide (transaction_type t = ty) then Some t else None
  | None => None
  end.

(** [BankAccount.objects.get(id=..., user=..., is_active=True)]. *)
Definition get_bank_account (s : Store) (id user : nat) : option BankAccount :=
  find (fun b => bool_decide (bank_id b = id) && bool_decide (bank_user b = user)
                 && is_active b)
       (bank_accounts s).

(** [BankAccount.objects.filter(user=..., is_default=True,
    is_active=True).first()]; the table is listed in the order [first()]
    goes by. *)
Definition default_bank_account (s : Store) (user : nat) : option BankAccount :=
  find (fun b => bool_decide (bank_user b = user) && is_default b && is_active b)
       (bank_accounts s).


Module WalletService.
Section Service.

(** The id of the customer Stripe creates for a user. *)
Variable new_customer_id : nat -> string.

Definition get_or_create_wallet (user : nat) (s : Store) : Store * UserWallet :=
  let '(s1, w) :=
    match wallets s !! user with
    | Some w => (s, w)
    | None => (save_wallet user new_wallet s, new_wallet)
    end in
  if no_customer w then
    let w' := set_customer w (new_customer_id user) in
    (save_wallet user w' s1, w')
  else (s1, w).

Definition create_deposit_intent (user : nat) (amount : Z)
    (payment_method_id description : string) (reply : GatewayReply)
    (s : Store) : Store * Response :=
  let '(s1, w) := get_or_create_wallet user s in
  let stripe_fee :=
    dec_add (dec_mul (dec_of_cents amount) {| coefficient := 29; places := 3 |})
            {| coefficient := 30; places := 2 |} in
  let platform_fee :=
    dec_mul (dec_of_cents amount) {| coefficient := 1; places := 2 |} in
  let record :=
    new_transaction user ty_deposit amount
      (or_default description "Deposit to wallet") None
      (to_cents platform_fee) (to_cents stripe_fee) (available_balance w) in
  let '(s2, id) := create_transaction record s1 in
  match reply with
  | IntentCreated intent =>
      (save_transaction id (mark_processing record intent) s2,
       DepositStarted intent id)
  | StripeError e =>
      (save_transaction id (mark_failed record e) s2, DepositRejected e id)
  end.

Definition complete_deposit (transaction_id : nat)
    (stripe_charge_id : option string) (now : nat) (s : Store)
    : Store * Outcome :=
  match get_transaction_of_type s transaction_id ty_deposit with
  | None => (s, Return false)
  | Some t =>
      if negb (bool_decide (status t = processing)) then (s, Return false)
      else
        match wallets s !! wallet t with
        | None => (s, Raise "WalletTransaction has no wallet.")
        | Some w =>
            let w1 := set_available w (available_balance w + net_amount t) in
            let w' := set_total_deposited w1 (total_deposited w1 + amount t) in
            let t' := mark_completed (set_charge t stripe_charge_id)
                        (available_balance w') now in
            (save_transaction transaction_id t' (save_wallet (wallet t) w' s),
             Return true)
        end
  end.

Definition escrow_deposit (user : nat) (amount : Z) (trade : string)
    (description : string) (now : nat) (s : Store) : Store * Response :=
  let '(s1, w) := get_or_create_wallet user s in
  if negb (can_place_in_escrow w amount) then
    (s1, Failure "Insufficient available balance for escrow deposit")
  else
    let record :=
      new_transaction user ty_escrow_deposit amount
        (or_default description ("Escrow deposit for trade " +:+ trade))
        (Some trade) 0 0 (available_balance w) in
    let '(s2, id) := create_transaction record s1 in
    match move_to_escrow w amount with
    | None => (s2, Failure "Insufficient available balance for escrow")
    | Some w' =>
        let s3 := save_wallet user w' s2 in
        let record' := mark_completed record (available_balance w') now in
        (save_transaction id record' s3, EscrowHeld id (escrow_balance w'))
    end.

Definition release_escrow (user : nat) (amount : Z) (trade : string)
    (to_available : bool) (description : string) (now : nat) (s : Store)
    : Store * Response :=
  let '(s1, w) := get_or_create_wallet user s in
  if escrow_balance w <? amount then
    (s1, Failure "Insufficient escrow balance")
  else
    let ty := if to_available then ty_escrow_release else ty_escrow_refund in
    let record :=
      new_transaction user ty amount
        (or_default description ("Escrow release for trade " +:+ trade))
        (Some trade) 0 0 (available_balance w) in
    let '(s2, id) := create_transaction record s1 in
    match release_from_escrow w amount to_available with
    | None => (s2, Failure "Insufficient escrow balance")
    | Some w' =>
        let s3 := save_wallet user w' s2 in
        let record' := mark_completed record (available_balance w') now in
        (save_transaction id record' s3,
         EscrowReleased id (available_balance w') (escrow_balance w'))
    end.

Definition shipping_payment (user : nat) (amount : Z) (trade : string)
    (description : string) (now : nat) (s : Store) : Store * Response :=
  let '(s1, w) := get_or_create_wallet user s in
  if negb (can_withdraw w amount) then
    (s1, Failure "Insufficient available balance for shipping payment")
  else
    let record :=
      new_transaction user ty_shipping_payment amount
        (or_default description ("Shipping payment for trade " +:+ trade))
        (Some trade) 0 0 (available_balance w) in
    let '(s2, id) := create_transaction record s1 in
    let w1 := set_available w (available_balance w - amount) in
    let w' := set_total_shipping_paid w1 (total_shipping_paid w1 + amount) in
    let s3 := save_wallet user w' s2 in
    let record' := mark_completed record (available_balance w') now in
    (save_transaction id record' s3, ShippingPaid id (available_balance w')).

Definition create_withdrawal (user : nat) (amount : Z)
    (bank_account_id : option nat) (description : string) (s : Store)
    : Store * Response :=
  let '(s1, w) := get_or_create_wallet user s in
  if negb (can_withdraw w amount) then
    (s1, Failure "Insufficient available balance for withdrawal")
  else
    let found :=
      match bank_account_id with
      | Some id =>
          match get_bank_account s1 id user with
          | Some b => inl b
          | None => inr "Bank account not found"
          end
      | None =>
          match default_bank_account s1 user with
          | Some b => inl b
          | None => inr "No default bank account found"
          end
      end in
    match found with
    | inr e => (s1, Failure e)
    | inl bank_account =>
        let record :=
          new_transaction user ty_withdrawal amount
            (or_default description
               ("Withdrawal to " +:+ bank_name bank_account))
            None 0 0 (available_balance w) in
        let '(s2, id) := create_transaction record s1 in
        (save_transaction id (set_status record processing) s2,
         WithdrawalStarted id (bank_name bank_account))
    end.

Definition complete_withdrawal (transaction_id : nat) (now : nat) (s : Store)
    : Store * Outcome :=
  match get_transaction_of_type s transaction_id ty_withdrawal with
  | None => (s, Return false)
  | Some t =>
      if negb (bool_decide (status t = processing)) then (s, Return false)
      else
        match wallets s !! wallet t with
        | None => (s, Raise "WalletTransaction has no wallet.")
        | Some w =>
            let w1 := set_available w (available_balance w - amount t) in
            let w' := set_total_withdrawn w1 (total_withdrawn w1 + amount t) in
            let t' := mark_completed t (available_balance w') now in
            (save_transaction transaction_id t' (save_wallet (wallet t) w' s),
             Return true)
        end
  end.

Definition refund_transaction (transaction_id : nat) (reason : string)
    (now : nat) (s : Store) : Store * Response :=
  match transactions s !! transaction_id with
  | None => (s, Failure "Original transaction not found")
  | Some original =>
      match wallets s !! wallet original with
      | None => (s, Failure "WalletTransaction has no wallet.")
      | Some w =>
          let record :=
            new_transaction (wallet original) ty_refund (amount original)
              ("Refund for "
               +:+ get_transaction_type_display (transaction_type original)
               +:+ " - " +:+ reason)
              (trade_id original) 0 0 (available_balance w) in
          let '(s1, id) := create_transaction record s in
          let w' := set_available w (available_balance w + amount original) in
          let s2 := save_wallet (wallet original) w' s1 in
          let record' := mark_completed record (available_balance w') now in
          let s3 := save_transaction id record' s2 in
          (save_transaction transaction_id (set_status original refunded) s3,
           Refunded id (amount original))
      end
  end.


End Service.
End WalletService.

(** ** views.py: the Stripe webhook *)

(** The events the handler tells apart, with the [transaction_id] found in
    the intent's metadata. *)
Inductive Event :=
  | payment_intent_succeeded (transaction_id : option nat)
                             (latest_charge : option string)
  | payment_intent_payment_failed (transaction_id : option nat)
  | other_event.

(** What [stripe.Webhook.construct_event] makes of the request. *)
Inductive Delivery :=
  | invalid_payload
  | invalid_signature
  | verified (e : Event).

(** The handler: the store it leaves and the HTTP status it answers (500
    when [complete_deposit] raises). *)
Definition stripe_webhook (d : Delivery) (now : nat) (s : Store) : Store * nat :=
  match d with
  | invalid_payload | invalid_signature => (s, 400%nat)
  | verified (payment_intent_succeeded (Some id) charge) =>
      match WalletService.complete_deposit id charge now s with
      | (s', Return _) => (s', 200%nat)
      | (s', Raise _) => (s', 500%nat)
      end
  | verified (payment_intent_payment_failed (Some id)) =>
      match transactions s !! id with
      | Some t => (save_transaction id (set_status t failed) s, 200%nat)
      | None => (s, 200%nat)
      end
  | verified _ => (s, 200%nat)
  end.

(** ** Sequences of calls *)

Inductive Op :=
  | op_create_deposit_intent (user : nat) (amt : Z) (payment_method_id : string)
                             (descr : string) (reply : GatewayReply)
  | op_complete_deposit (id : nat) (charge : option string) (now : nat)
  | op_escrow_deposit (user : nat) (amt : Z) (trade descr : string) (now : nat)
  | op_release_escrow (user : nat) (amt : Z) (trade : string)
                      (to_available : bool) (descr : string) (now : nat)
  | op_shipping_payment (user : nat) (amt : Z) (trade descr : string) (now : nat)
  | op_create_withdrawal (user : nat) (amt : Z) (bank : option nat)
                         (descr : string)
  | op_complete_withdrawal (id : nat) (now : nat)
  | op_refund_transaction (id : nat) (reason : string) (now : nat)
  | op_stripe_webhook (d : Delivery) (now : nat).

Section Runs.

Variable new_customer_id : nat -> string.

Definition step (s : Store) (o : Op) : Store :=
  match o with
  | op_create_deposit_intent u a pm d r =>
      (WalletService.create_deposit_intent new_customer_id u a pm d r s).1
  | op_complete_deposit id c now => (WalletService.complete_deposit id c now s).1
  | op_escrow_deposit u a tr d now =>
      (WalletService.escrow_deposit new_customer_id u a tr d now s).1
  | op_release_escrow u a tr av d now =>
      (WalletService.release_escrow new_customer_id u a tr av d now s).1
  | op_shipping_payment u a tr d now =>
      (WalletService.shipping_payment new_customer_id u a tr d now s).1
  | op_create_withdrawal u a b d =>
      (WalletService.create_withdrawal new_customer_id u a b d s).1
  | op_complete_withdrawal id now => (WalletService.complete_withdrawal id now s).1
  | op_refund_transaction id r now => (WalletService.refund_transaction id r now s).1
  | op_stripe_webhook d now => (stripe_webhook d now s).1
  end.

Definition run (ops : list Op) (s : Store) : Store := foldl step s ops.

End Runs.

(** A database with no wallet and no transaction yet. *)
Definition fresh (banks : list BankAccount) : Store :=
  {| wallets := ∅; transactions := []; bank_accounts := banks |}.

(** The effect a completed transaction is meant to have had on the available
    balance, as the specification words it: [+ net_amount] for a deposit,
    [- amount] for an escrow deposit, a shipping payment, a withdrawal (and
    a fee), [+ amount] for a refund (and a release back to the wallet); a
    release paid out of the wallet leaves the available balance alone. *)
Definition spec_signed_effect (t : WalletTransaction) : Z :=
  match transaction_type t with
  | ty_deposit => net_amount t
  | ty_refund | ty_escrow_release => amount t
  | ty_withdrawal | ty_escrow_deposit | ty_shipping_payment | ty_trade_fee =>
      - amount t
  | ty_escrow_refund => 0
  end.

(** The statuses the specification calls terminal. *)
Definition terminal (st : Status) : bool :=
  match st with
  | completed | failed | cancelled | refunded => true
  | pending | processing => false
  end.

(** The destination [create_withdrawal] settles on. *)
Definition resolve_destination (s : Store) (user : nat) (bank : option nat)
    : option BankAccount :=
  match bank with
  | Some id => get_bank_account s id user
  | None => default_bank_account s user
  end.

(** Two wallet rows that differ at most in the Stripe customer reference. *)
Definition same_funds (w w' : UserWallet) : Prop :=
  available_balance w' = available_balance w
  /\ escrow_balance w' = escrow_balance w
  /\ total_deposited w' = total_deposited w
  /\ total_withdrawn w' = total_withdrawn w
  /\ total_shipping_paid w' = total_shipping_paid w
  /\ withdrawal_limit_daily w' = withdrawal_limit_daily w
  /\ withdrawal_limit_monthly w' = withdrawal_limit_monthly w.

(** What the schema promises of a database: every transaction points to a
    wallet row (the foreign key), and no escrow balance is negative. *)
Definition consistent (s : Store) : Prop :=
  (forall id t, transactions s !! id = Some t -> is_Some (wallets s !! wallet t))
  /\ (forall u w, wallets s !! u = Some w -> 0 <= escrow_balance w).

(** The amount a call carries is positive, as the specification requires of
    every input. *)
Definition positive_amount (o : Op) : Prop :=
  match o with
  | op_create_deposit_intent _ a _ _ _
  | op_escrow_deposit _ a _ _ _
  | op_release_escrow _ a _ _ _ _
  | op_shipping_payment _ a _ _ _
  | op_create_withdrawal _ a _ _ => 0 < a
  | _ => True
  end.

(** The two snapshots of a row bracket its effect. *)
Definition bracketed (t : WalletTransaction) : Prop :=
  exists b a, balance_before t = Some b /\ balance_after t = Some a
              /\ a - b = spec_signed_effect t.

(** No wallet is overdrawn. *)
Definition solvent (s : Store) : Prop :=
  forall u w, wallets s !! u = Some w -> 0 <= available_balance w.

(** The calls that check the balance in the same atomic block in which
    they move it, and the intents, which move nothing. *)
Definition guarded (o : Op) : Prop :=
  match o with
  | op_create_deposit_intent _ _ _ _ _
  | op_escrow_deposit _ _ _ _ _
  | op_release_escrow _ _ _ _ _ _
  | op_shipping_payment _ _ _ _ _
  | op_create_withdrawal _ _ _ _ => True
  | _ => False
  end.

(** Sample data for the closed examples. *)
Definition customer_of (u : nat) : string :=
  if decide (u = 1%nat) then "cus_alice" else "cus_other".

Definition first_bank : BankAccount :=
  {| bank_id := 7; bank_user := 1; bank_name := "First Bank";
     is_verified := false; is_default := true; is_active := true |}.

(** User 1 has asked to deposit $50.00 and Stripe has accepted the intent. *)
Definition deposit_requested : Store :=
  (WalletService.create_deposit_intent customer_of 1 5000 "pm_card" ""
     (IntentCreated "pi_1") (fresh [first_bank])).1.

(** ... and the deposit has been completed: the wallet of user 1 now holds
    $47.75. *)
Definition deposit_completed : Store :=
  (WalletService.complete_deposit 0 None 10 deposit_requested).1.

Definition funded_wallet : UserWallet :=
  {| stripe_customer_id := Some "cus_alice";
     available_balance := 4775;
     escrow_balance := 0;
     total_deposited := 5000;
     total_withdrawn := 0;
     total_shipping_paid := 0;
     withdrawal_limit_daily := 100000;
     withdrawal_limit_monthly := 1000000 |}.

(** A withdrawal of $90.00 is requested against $95.80, $50.00 are then
    spent on shipping, and the withdrawal is completed. *)
Definition overdraft_run : list Op :=
  [ op_create_deposit_intent 1 10000 "pm_card" "" (IntentCreated "pi_1");
    op_complete_deposit 0 (Some "ch_1") 10;
    op_create_withdrawal 1 9000 None "";
    op_shipping_payment 1 5000 "trade-9" "" 11;
    op_complete_withdrawal 1 12 ].

(** Two deposits of $50.00 are requested before either is completed. *)
Definition interleaved_deposits : list Op :=
  [ op_create_deposit_intent 1 5000 "pm_card" "" (IntentCreated "pi_1");
    op_create_deposit_intent 1 5000 "pm_card" "" (IntentCreated "pi_2");
    op_complete_deposit 0 (Some "ch_1") 10;
    op_complete_deposit 1 (Some "ch_2") 11 ].

(** Stripe reports the same deposit as succeeded, then as failed. *)
Definition succeeded_then_failed : list Op :=
  [ op_create_deposit_intent 1 5000 "pm_card" "" (IntentCreated "pi_1");
    op_stripe_webhook (verified (payment_intent_succeeded (Some 0%nat)
                                   (Some "ch_1"))) 10;
    op_stripe_webhook (verified (payment_intent_payment_failed (Some 0%nat)))
      11 ].

(** Stripe refuses a deposit, which is then refunded. *)
Definition failed_then_refunded : list Op :=
  [ op_create_deposit_intent 1 5000 "pm_card" "" (StripeError "card_declined");
    op_refund_transaction 0 "support ticket" 10 ].

(** A withdrawal of $40.00 has been requested on the funded wallet. *)
Definition withdrawal_requested : Store :=
  (WalletService.create_withdrawal customer_of 1 4000 None ""
     deposit_completed).1.

(** [refund_transaction] called [n] times on the same row. *)
Definition refund_repeatedly (n : nat) (id : nat) (reason : string) (now : nat)
    (s : Store) : Store :=
  Nat.iter n (fun s => (WalletService.refund_transaction id reason now s).1) s.

(** The sum of [f] over the rows of user [u]. *)
Definition tally (f : WalletTransaction -> Z) (u : nat)
    (l : list WalletTransaction) : Z :=
  foldr (fun t acc => (if decide (wallet t = u) then f t else 0) + acc) 0 l.

(** What a row of the log has done to the wallet it belongs to.  A deposit
    or a withdrawal counts once it carries a completion time; the rows that
    are made and completed in one call always count. *)
Definition effect_on_available (t : WalletTransaction) : Z :=
  match transaction_type t with
  | ty_deposit => if completed_at t is Some _ then net_amount t else 0
  | ty_withdrawal => if completed_at t is Some _ then - amount t else 0
  | ty_escrow_deposit | ty_shipping_payment => - amount t
  | ty_escrow_release | ty_refund => amount t
  | ty_escrow_refund | ty_trade_fee => 0
  end.

Definition effect_on_escrow (t : WalletTransaction) : Z :=
  match transaction_type t with
  | ty_escrow_deposit => amount t
  | ty_escrow_release | ty_escrow_refund => - amount t
  | _ => 0
  end.

Definition counted_deposit (t : WalletTransaction) : Z :=
  match transaction_type t with
  | ty_deposit => if completed_at t is Some _ then amount t else 0
  | _ => 0
  end.

Definition counted_withdrawal (t : WalletTransaction) : Z :=
  match transaction_type t with
  | ty_withdrawal => if completed_at t is Some _ then amount t else 0
  | _ => 0
  end.

Definition counted_shipping (t : WalletTransaction) : Z :=
  match transaction_type t with
  | ty_shipping_payment => amount t
  | _ => 0
  end.

(** The wallet of user [u] holds what the log [l] says it should. *)
Definition reconciled (w : UserWallet) (u : nat) (l : list WalletTransaction)
    : Prop :=
  available_balance w = tally effect_on_available u l
  /\ escrow_balance w = tally effect_on_escrow u l
  /\ total_deposited w = tally counted_deposit u l
  /\ total_withdrawn w = tally counted_withdrawal u l
  /\ total_shipping_paid w = tally counted_shipping u l.

(** The shapes a stored row can have: an intent waiting for Stripe (a
    deposit or a withdrawal, not yet stamped), or a row that was completed,
    failed or refunded; a completed row carries its closing snapshot and
    its completion time, and so does every row that is neither a deposit
    nor a withdrawal. *)
Definition row_ok (t : WalletTransaction) : Prop :=
  transaction_type t <> ty_trade_fee
  /\ match status t with
     | pending | cancelled => False
     | processing =>
         (transaction_type t = ty_deposit \/ transaction_type t = ty_withdrawal)
         /\ completed_at t = None /\ balance_after t = None
     | completed => is_Some (completed_at t) /\ is_Some (balance_after t)
     | failed | refunded => True
     end
  /\ match transaction_type t with
     | ty_deposit | ty_withdrawal => True
     | _ => is_Some (completed_at t) /\ is_Some (balance_after t)
     end.

(** A database whose wallets agree with its log. *)
Definition audited (s : Store) : Prop :=
  Forall row_ok (transactions s)
  /\ forall u, reconciled (default new_wallet (wallets s !! u)) u
                 (transactions s).

(** How a stored row can differ from what it was.  The columns written
    when the row was created stay; the status stays, or becomes 'failed'
    or 'refunded', or goes from 'processing' to 'completed' (for a deposit
    or a withdrawal); and once the row has left 'processing' its charge id,
    closing snapshot and completion time stay too. *)
Definition evolves (t t' : WalletTransaction) : Prop :=
  (wallet t' = wallet t
   /\ transaction_type t' = transaction_type t
   /\ amount t' = amount t
   /\ description t' = description t
   /\ stripe_payment_intent_id t' = stripe_payment_intent_id t
   /\ trade_id t' = trade_id t
   /\ platform_fee t' = platform_fee t
   /\ stripe_fee t' = stripe_fee t
   /\ balance_before t' = balance_before t)
  /\ (status t' = status t
      \/ status t' = failed
      \/ status t' = refunded
      \/ (status t = processing /\ status t' = completed
          /\ (transaction_type t = ty_deposit
              \/ transaction_type t = ty_withdrawal)))
  /\ (status t <> processing ->
      stripe_charge_id t' = stripe_charge_id t
      /\ balance_after t' = balance_after t
      /\ completed_at t' = completed_at t).

(** A row that cannot take money out of a wallet when it is completed or
    refunded: its amount is not negative, and if it is a deposit its net
    amount is not negative either. *)
Definition backed (t : WalletTransaction) : Prop :=
  0 <= amount t /\ (transaction_type t = ty_deposit -> 0 <= net_amount t).

(** No wallet is overdrawn and every row is backed. *)
Definition covered (s : Store) : Prop :=
  solvent s /\ Forall backed (transactions s).

(** A call that is not the completion of a withdrawal, with a positive amount
    (at least $0.31 for a deposit, from where on the net amount is not
    negative). *)
Definition safe_call (o : Op) : Prop :=
  match o with
  | op_create_deposit_intent _ a _ _ _ => 31 <= a
  | op_escrow_deposit _ a _ _ _
  | op_release_escrow _ a _ _ _ _
  | op_shipping_payment _ a _ _ _
  | op_create_withdrawal _ a _ _ => 0 < a
  | op_complete_withdrawal _ _ => False
  | _ => True
  end.

(** ** models.py and services.py: payment methods and bank accounts *)

Record PaymentMethod := {
  pm_id : nat;
  pm_user : nat;
  stripe_payment_method_id : string;
  payment_type : string;
  last_four : string;
  brand : string;
  pm_is_default : bool;
  pm_is_active : bool
}.

Definition pm_set_default (p : PaymentMethod) (b : bool) : PaymentMethod :=
  {| pm_id := pm_id p;
     pm_user := pm_user p;
     stripe_payment_method_id := stripe_payment_method_id p;
     payment_type := payment_type p;
     last_four := last_four p;
     brand := brand p;
     pm_is_default := b;
     pm_is_active := pm_is_active p |}.

(** [PaymentMethod.objects.filter(user=user, is_default=True)
    .exclude(id=id).update(is_default=False)]. *)
Definition pm_clear_other_defaults (user id : nat) (l : list PaymentMethod)
    : list PaymentMethod :=
  (fun x => if bool_decide (pm_user x = user) && pm_is_default x
               && negb (bool_decide (pm_id x = id))
            then pm_set_default x false else x) <$> l.

(** [super().save()]: the row with the key of the object is overwritten, or
    the object becomes a new row. *)
Definition pm_write (p : PaymentMethod) (l : list PaymentMethod)
    : list PaymentMethod :=
  if existsb (fun x => bool_decide (pm_id x = pm_id p)) l
  then (fun x => if bool_decide (pm_id x = pm_id p) then p else x) <$> l
  else l ++ [p].

(** [PaymentMethod.save]. *)
Definition PaymentMethod_save (p : PaymentMethod) (l : list PaymentMethod)
    : list PaymentMethod :=
  pm_write p (if pm_is_default p
              then pm_clear_other_defaults (pm_user p) (pm_id p) l
              else l).

(** What Stripe answers when the method is retrieved and attached. *)
Inductive StripeMethodReply :=
  | MethodAttached (type card_last4 card_brand : string)
  | MethodError (message : string).

(** The dicts of [PaymentMethodService]. *)
Inductive MethodResponse :=
  | MethodAdded (payment_method_id : nat)
  | MethodRemoved
  | MethodFailure (error : string).

(** The key of a new row: one that no row carries. *)
Definition new_pm_id (l : list PaymentMethod) : nat := S (max_list (pm_id <$> l)).

Module PaymentMethodService.
Section Service.

Variable new_customer_id : nat -> string.

Definition add_payment_method (user : nat) (stripe_id : string)
    (reply : StripeMethodReply) (s : Store) (l : list PaymentMethod)
    : Store * list PaymentMethod * MethodResponse :=
  let '(s1, w) := WalletService.get_or_create_wallet new_customer_id user s in
  match reply with
  | MethodAttached type card_last4 card_brand =>
      let is_card := bool_decide (type = "card") in
      let p :=
        {| pm_id := new_pm_id l;
           pm_user := user;
           stripe_payment_method_id := stripe_id;
           payment_type := type;
           last_four := if is_card then card_last4 else "";
           brand := if is_card then card_brand else "";
           pm_is_default :=
             negb (existsb (fun x => bool_decide (pm_user x = user)) l);
           pm_is_active := true |} in
      (s1, PaymentMethod_save p l, MethodAdded (pm_id p))
  | MethodError e => (s1, l, MethodFailure e)
  end.

(** [detach_error] is the [StripeError] of [stripe.PaymentMethod.detach], if
    it raises one. *)
Definition remove_payment_method (user id : nat) (detach_error : option string)
    (l : list PaymentMethod) : list PaymentMethod * MethodResponse :=
  match find (fun x => bool_decide (pm_id x = id)
                       && bool_decide (pm_user x = user)) l with
  | None => (l, MethodFailure "Payment method not found")
  | Some p =>
      match detach_error with
      | Some e => (l, MethodFailure e)
      | None => (filter (fun x => pm_id x <> id) l, MethodRemoved)
      end
  end.

End Service.
End PaymentMethodService.

(** views.py, [PaymentMethodViewSet.set_default]: the status it answers (404
    when the user has no active method with this key) and the table it
    leaves. *)
Definition set_default (user id : nat) (l : list PaymentMethod)
    : list PaymentMethod * nat :=
  match find (fun x => bool_decide (pm_id x = id)
                       && bool_decide (pm_user x = user)
                       && pm_is_active x) l with
  | None => (l, 404%nat)
  | Some p =>
      let l1 :=
        (fun x => if bool_decide (pm_user x = user) && pm_is_default x
                  then pm_set_default x false else x) <$> l in
      (PaymentMethod_save (pm_set_default p true) l1, 200%nat)
  end.

(** [BankAccount.save].  An account with a new key becomes a new row;
    [pos] is the place its key takes in the order of the table. *)
Definition bank_set_default (b : BankAccount) (d : bool) : BankAccount :=
  {| bank_id := bank_id b;
     bank_user := bank_user b;
     bank_name := bank_name b;
     is_verified := is_verified b;
     is_default := d;
     is_active := is_active b |}.

Definition BankAccount_save (b : BankAccount) (pos : nat) (l : list BankAccount)
    : list BankAccount :=
  let l1 :=
    if is_default b then
      (fun x => if bool_decide (bank_user x = bank_user b) && is_default x
                   && negb (bool_decide (bank_id x = bank_id b))
                then bank_set_default x false else x) <$> l
    else l in
  if existsb (fun x => bool_decide (bank_id x = bank_id b)) l1
  then (fun x => if bool_decide (bank_id x = bank_id b) then b else x) <$> l1
  else take pos l1 ++ b :: drop pos l1.

Definition with_bank_accounts (s : Store) (l : list BankAccount) : Store :=
  {| wallets := wallets s;
     transactions := transactions s;
     bank_accounts := l |}.

(** The rows of the payment-method table have distinct keys and no user has
    two default methods. *)
Definition one_default (l : list PaymentMethod) : Prop :=
  NoDup (pm_id <$> l)
  /\ forall x y, x ∈ l -> y ∈ l -> pm_user x = pm_user y ->
       pm_is_default x = true -> pm_is_default y = true -> x = y.

(** Sample cards of user 1. *)
Definition visa : PaymentMethod :=
  {| pm_id := 1; pm_user := 1; stripe_payment_method_id := "pm_visa";
     payment_type := "card"; last_four := "4242"; brand := "visa";
     pm_is_default := true; pm_is_active := true |}.

Definition amex : PaymentMethod :=
  {| pm_id := 2; pm_user := 1; stripe_payment_method_id := "pm_amex";
     payment_type := "card"; last_four := "0005"; brand := "amex";
     pm_is_default := false; pm_is_active := true |}.

Definition second_bank : BankAccount :=
  {| bank_id := 9; bank_user := 1; bank_name := "Second Bank";
     is_verified := true; is_default := true; is_active := true |}.

(** * Properties *)

(** ** The store primitives *)

Section StoreFacts.

Variable new_customer_id : nat -> string.

Lemma same_funds_refl w : same_funds w w.
Proof. by repeat split. Qed.

Lemma same_funds_set_customer w c : same_funds w (set_customer w c).
Proof. by repeat split. Qed.

(** The lazily created wallet: the call leaves the user with the row it
    returns, which carries the funds the user had (none for a new row), and
    touches nothing else. *)
Lemma get_or_create_wallet_spec user s :
  let '(s1, w1) := WalletService.get_or_create_wallet new_customer_id user s in
  wallets s1 !! user = Some w1
  /\ same_funds (default new_wallet (wallets s !! user)) w1
  /\ transactions s1 = transactions s
  /\ bank_accounts s1 = bank_accounts s
  /\ (forall u, u <> user -> wallets s1 !! u = wallets s !! u)
  /\ (forall w, wallets s !! user = Some w -> no_customer w = false ->
      s1 = s /\ w1 = w).
Proof.
  unfold WalletService.get_or_create_wallet.
  destruct (wallets s !! user) as [w|] eqn:Hw; simpl;
    [destruct (no_customer w) eqn:Hc|]; simpl;
    (split; [by rewrite ?lookup_insert_eq|]);
    (split; [by repeat split|]);
    (split; [done|]); (split; [done|]);
    (split; [by intros u Hu; rewrite ?lookup_insert_ne|]).
  - intros w0 [= ->]. by rewrite Hc.
  - by intros w0 [= ->] _.
  - done.
Qed.

End StoreFacts.

(** ** Deposit completion *)

Section CompleteDeposit.

Implicit Types (s : Store) (t : WalletTransaction) (w : UserWallet).

Lemma get_transaction_of_type_hit s id ty t :
  transactions s !! id = Some t -> transaction_type t = ty ->
  get_transaction_of_type s id ty = Some t.
Proof.
  intros Hid Hty. unfold get_transaction_of_type. rewrite Hid.
  by rewrite decide_True.
Qed.

(** The one path of [complete_deposit] that writes. *)
Lemma complete_deposit_processing s id charge now t w :
  transactions s !! id = Some t ->
  transaction_type t = ty_deposit ->
  status t = processing ->
  wallets s !! wallet t = Some w ->
  WalletService.complete_deposit id charge now s =
    (save_transaction id
       (mark_completed (set_charge t charge)
          (available_balance w + net_amount t) now)
       (save_wallet (wallet t)
          (set_total_deposited
             (set_available w (available_balance w + net_amount t))
             (total_deposited w + amount t)) s),
     Return true).
Proof.
  intros Hid Hty Hst Hw. unfold WalletService.complete_deposit.
  rewrite (get_transaction_of_type_hit _ _ _ _ Hid Hty).
  rewrite Hst, bool_decide_eq_true_2 by done. simpl.
  by rewrite Hw.
Qed.

(** Every other path returns [False] and writes nothing. *)
Lemma complete_deposit_guarded s id charge now :
  (transactions s !! id = None
   \/ exists t, transactions s !! id = Some t
        /\ (transaction_type t <> ty_deposit \/ status t <> processing)) ->
  WalletService.complete_deposit id charge now s = (s, Return false).
Proof.
  unfold WalletService.complete_deposit, get_transaction_of_type.
  intros [-> | (t & -> & Hno)]; [done|].
  destruct (decide (transaction_type t = ty_deposit)) as [Hty|]; [|done].
  destruct Hno as [Hno | Hno]; [done|].
  by rewrite bool_decide_eq_false_2.
Qed.

End CompleteDeposit.

(** C3. A deposit in status 'processing' is credited once: the first
    [complete_deposit] returns [True], adds the net amount to
    [available_balance] and the amount to [total_deposited], and completes
    the row; a second call with the same id returns [False] and leaves the
    whole store as it is.  When the id is unknown, or the row is not a
    deposit, or its status is not 'processing', the call returns [False] and
    leaves the store as it is. *)
Theorem complete_deposit_credits_once
    (s : Store) (id : nat) (charge charge' : option string) (now now' : nat) :
  (forall t w,
      transactions s !! id = Some t ->
      transaction_type t = ty_deposit ->
      status t = processing ->
      wallets s !! wallet t = Some w ->
      exists s1 w1 t1,
        WalletService.complete_deposit id charge now s = (s1, Return true)
        /\ wallets s1 !! wallet t = Some w1
        /\ available_balance w1 = available_balance w + net_amount t
        /\ total_deposited w1 = total_deposited w + amount t
        /\ transactions s1 !! id = Some t1
        /\ status t1 = completed
        /\ WalletService.complete_deposit id charge' now' s1 = (s1, Return false))
  /\ ((transactions s !! id = None
       \/ exists t, transactions s !! id = Some t
            /\ (transaction_type t <> ty_deposit \/ status t <> processing)) ->
      WalletService.complete_deposit id charge now s = (s, Return false)).
Proof.
  split; [|apply complete_deposit_guarded].
  intros t w Hid Hty Hst Hw.
  rewrite (complete_deposit_processing _ _ charge now _ _ Hid Hty Hst Hw).
  eexists _, _, _. split; [reflexivity|].
  assert (Hlt : (id < length (transactions s))%nat) by by eapply lookup_lt_Some.
  repeat split.
  - simpl. by rewrite lookup_insert_eq.
  - done.
  - done.
  - simpl. by rewrite list_lookup_insert_eq.
  - done.
  - apply complete_deposit_guarded. right. eexists. split.
    + simpl. by rewrite list_lookup_insert_eq.
    + by right.
Qed.

(** The sample deposit is credited once; an unknown id changes nothing. *)
Lemma complete_deposit_credits_once_witness :
  exists s1 w1,
    WalletService.complete_deposit 0 (Some "ch_1") 10 deposit_requested
      = (s1, Return true)
    /\ wallets s1 !! 1%nat = Some w1
    /\ available_balance w1 = 4775
    /\ total_deposited w1 = 5000
    /\ WalletService.complete_deposit 0 (Some "ch_1") 11 s1 = (s1, Return false)
    /\ WalletService.complete_deposit 3 None 10 deposit_requested
      = (deposit_requested, Return false).
Proof.
  destruct (complete_deposit_credits_once deposit_requested 0
              (Some "ch_1") (Some "ch_1") 10 11) as [Hfirst _].
  destruct (complete_deposit_credits_once deposit_requested 3
              None None 10 10) as [_ Hmiss].
  edestruct Hfirst as (s1 & w1 & t1 & H1 & Hw & Ha & Hd & _ & _ & H2);
    [reflexivity ..|].
  exists s1, w1.
  split; [exact H1|]. split; [exact Hw|]. split; [exact Ha|].
  split; [exact Hd|]. split; [exact H2|].
  apply Hmiss. left. reflexivity.
Defined.

(** C10. Completing a processing deposit writes two rows only.  In the
    owner's wallet it changes [available_balance] and [total_deposited];
    the escrow balance, the other lifetime counters, the withdrawal limits
    and the Stripe customer id stay.  In the transaction table it rewrites
    the row of the deposit (status, charge id, closing snapshot, completion
    time) and no other row; no row is added.  Other wallets and the bank
    accounts stay. *)
Theorem complete_deposit_frame
    (s : Store) (id : nat) (charge : option string) (now : nat)
    (t : WalletTransaction) (w : UserWallet) :
  transactions s !! id = Some t ->
  transaction_type t = ty_deposit ->
  status t = processing ->
  wallets s !! wallet t = Some w ->
  let s1 := (WalletService.complete_deposit id charge now s).1 in
  (exists w1,
      wallets s1 !! wallet t = Some w1
      /\ escrow_balance w1 = escrow_balance w
      /\ total_withdrawn w1 = total_withdrawn w
      /\ total_shipping_paid w1 = total_shipping_paid w
      /\ withdrawal_limit_daily w1 = withdrawal_limit_daily w
      /\ withdrawal_limit_monthly w1 = withdrawal_limit_monthly w
      /\ stripe_customer_id w1 = stripe_customer_id w)
  /\ (forall u, u <> wallet t -> wallets s1 !! u = wallets s !! u)
  /\ (forall j, j <> id -> transactions s1 !! j = transactions s !! j)
  /\ length (transactions s1) = length (transactions s)
  /\ (exists t1,
        transactions s1 !! id = Some t1
        /\ wallet t1 = wallet t
        /\ transaction_type t1 = transaction_type t
        /\ amount t1 = amount t
        /\ description t1 = description t
        /\ stripe_payment_intent_id t1 = stripe_payment_intent_id t
        /\ trade_id t1 = trade_id t
        /\ platform_fee t1 = platform_fee t
        /\ stripe_fee t1 = stripe_fee t
        /\ balance_before t1 = balance_before t)
  /\ bank_accounts s1 = bank_accounts s.
Proof.
  intros Hid Hty Hst Hw s1. subst s1.
  rewrite (complete_deposit_processing _ _ charge now _ _ Hid Hty Hst Hw).
  unfold save_transaction, save_wallet. simpl.
  assert (Hlt : (id < length (transactions s))%nat) by by eapply lookup_lt_Some.
  split; [|split; [|split; [|split; [|split]]]].
  - eexists. split; [by rewrite lookup_insert_eq|]. by repeat split.
  - intros u Hu. by rewrite lookup_insert_ne.
  - intros j Hj. by rewrite list_lookup_insert_ne.
  - by rewrite length_insert.
  - eexists. split; [by rewrite list_lookup_insert_eq|]. by repeat split.
  - done.
Qed.

(** The frame at the sample deposit. *)
Lemma complete_deposit_frame_witness :
  let s1 := (WalletService.complete_deposit 0 (Some "ch_1") 10
               deposit_requested).1 in
  length (transactions s1) = length (transactions deposit_requested)
  /\ bank_accounts s1 = bank_accounts deposit_requested
  /\ exists w1, wallets s1 !! 1%nat = Some w1 /\ escrow_balance w1 = 0.
Proof.
  edestruct (complete_deposit_frame deposit_requested 0 (Some "ch_1") 10)
    as ((w1 & Hw & He & _) & _ & _ & Hlen & _ & Hb); [reflexivity ..|].
  split; [exact Hlen|]. split; [exact Hb|].
  exists w1. split; [exact Hw|]. exact He.
Defined.

(** ** Escrow *)

Section Escrow.

Variable new_customer_id : nat -> string.

Implicit Types (s : Store) (w : UserWallet).

Ltac funds := unfold same_funds; simpl; repeat split; congruence.

Lemma insert_last {A} (l : list A) (x y : A) :
  <[length l := y]> (l ++ [x]) = l ++ [y].
Proof.
  rewrite insert_app_r_alt by lia. by rewrite Nat.sub_diag.
Qed.

(** What [escrow_deposit] does, on both sides of its guard.  [w0] is the
    wallet the user had (the defaults if there was none). *)
Lemma escrow_deposit_spec user amt trade descr now s :
  let w0 := default new_wallet (wallets s !! user) in
  let '(s', r) :=
    WalletService.escrow_deposit new_customer_id user amt trade descr now s in
  bank_accounts s' = bank_accounts s
  /\ (forall u, u <> user -> wallets s' !! u = wallets s !! u)
  /\ exists w',
       wallets s' !! user = Some w'
       /\ if amt <=? available_balance w0 then
            r = EscrowHeld (length (transactions s)) (escrow_balance w0 + amt)
            /\ same_funds (set_balances w0 (available_balance w0 - amt)
                                           (escrow_balance w0 + amt)) w'
            /\ exists t,
                 transactions s' = transactions s ++ [t]
                 /\ wallet t = user
                 /\ transaction_type t = ty_escrow_deposit
                 /\ amount t = amt
                 /\ status t = completed
                 /\ platform_fee t = 0 /\ stripe_fee t = 0
                 /\ balance_before t = Some (available_balance w0)
                 /\ balance_after t = Some (available_balance w0 - amt)
          else
            r = Failure "Insufficient available balance for escrow deposit"
            /\ same_funds w0 w'
            /\ transactions s' = transactions s.
Proof.
  intros w0. unfold WalletService.escrow_deposit.
  pose proof (get_or_create_wallet_spec new_customer_id user s) as H.
  destruct (WalletService.get_or_create_wallet new_customer_id user s)
    as [s1 w1].
  destruct H as (Hw1 & Hsf & Htx & Hb & Hothers & _). fold w0 in Hsf.
  destruct Hsf as (Ha & He & Hd & Hwd & Hsh & Hl1 & Hl2).
  unfold move_to_escrow, can_place_in_escrow. rewrite Ha.
  destruct (amt <=? available_balance w0) eqn:Hle; simpl.
  - split; [done|]. split; [intros u Hu; rewrite lookup_insert_ne; auto|].
    eexists. split; [by rewrite lookup_insert_eq|].
    split; [by rewrite Htx, ?He|].
    split; [funds|].
    eexists. split; [by rewrite <- Htx, insert_last|].
    by repeat split.
  - split; [done|]. split; [done|].
    exists w1. split; [done|]. split; [done|]. split; [funds|done].
Qed.

Lemma release_escrow_spec user amt trade to_available descr now s :
  let w0 := default new_wallet (wallets s !! user) in
  let '(s', r) :=
    WalletService.release_escrow new_customer_id user amt trade to_available
      descr now s in
  bank_accounts s' = bank_accounts s
  /\ (forall u, u <> user -> wallets s' !! u = wallets s !! u)
  /\ exists w',
       wallets s' !! user = Some w'
       /\ if escrow_balance w0 <? amt then
            r = Failure "Insufficient escrow balance"
            /\ same_funds w0 w'
            /\ transactions s' = transactions s
          else
            let after := if to_available then available_balance w0 + amt
                         else available_balance w0 in
            r = EscrowReleased (length (transactions s)) after
                  (escrow_balance w0 - amt)
            /\ same_funds (set_balances w0 after (escrow_balance w0 - amt)) w'
            /\ exists t,
                 transactions s' = transactions s ++ [t]
                 /\ wallet t = user
                 /\ transaction_type t =
                      (if to_available then ty_escrow_release
                       else ty_escrow_refund)
                 /\ amount t = amt
                 /\ status t = completed
                 /\ platform_fee t = 0 /\ stripe_fee t = 0
                 /\ balance_before t = Some (available_balance w0)
                 /\ balance_after t = Some after.
Proof.
  intros w0. unfold WalletService.release_escrow.
  pose proof (get_or_create_wallet_spec new_customer_id user s) as H.
  destruct (WalletService.get_or_create_wallet new_customer_id user s)
    as [s1 w1].
  destruct H as (Hw1 & Hsf & Htx & Hb & Hothers & _). fold w0 in Hsf.
  destruct Hsf as (Ha & He & Hd & Hwd & Hsh & Hl1 & Hl2).
  unfold release_from_escrow. rewrite He, Ha.
  destruct (escrow_balance w0 <? amt) eqn:Hlt; simpl.
  - split; [done|]. split; [done|].
    exists w1. split; [done|]. split; [done|]. split; [funds|done].
  - split; [done|]. split; [intros u Hu; rewrite lookup_insert_ne; auto|].
    eexists. split; [by rewrite lookup_insert_eq|].
    split; [by rewrite Htx, ?Ha, ?He|].
    split; [funds|].
    eexists. split; [by rewrite <- Htx, insert_last|].
    by repeat split.
Qed.

End Escrow.

(** C5. For a wallet (with the non-negative escrow balance every wallet
    has) and an amount with [0 < amount <= available_balance], an escrow
    deposit of the amount followed by its release back to the wallet both
    succeed, and the wallet ends with exactly the available and escrow
    balances it started with. *)
Theorem escrow_roundtrip_restores_balances
    (new_customer_id : nat -> string) (s : Store) (user : nat) (w : UserWallet)
    (amt : Z) (trade descr trade' descr' : string) (now now' : nat) :
  wallets s !! user = Some w ->
  0 <= escrow_balance w ->
  0 < amt ->
  amt <= available_balance w ->
  exists s1 r1 s2 r2 w2,
    WalletService.escrow_deposit new_customer_id user amt trade descr now s
      = (s1, r1)
    /\ success r1 = true
    /\ WalletService.release_escrow new_customer_id user amt trade' true
         descr' now' s1 = (s2, r2)
    /\ success r2 = true
    /\ wallets s2 !! user = Some w2
    /\ available_balance w2 = available_balance w
    /\ escrow_balance w2 = escrow_balance w.
Proof.
  intros Hw He Hpos Hle.
  pose proof (escrow_deposit_spec new_customer_id user amt trade descr now s)
    as H1.
  destruct (WalletService.escrow_deposit _ _ _ _ _ _ s) as [s1 r1] eqn:E1.
  cbv zeta in H1. rewrite Hw in H1. simpl in H1.
  destruct H1 as (_ & _ & w1 & Hw1 & H1).
  rewrite (proj2 (Z.leb_le _ _) Hle) in H1.
  destruct H1 as (-> & (Ha1 & He1 & _) & _). simpl in Ha1, He1.
  pose proof (release_escrow_spec new_customer_id user amt trade' true descr'
                now' s1) as H2.
  destruct (WalletService.release_escrow _ _ _ _ _ _ _ s1) as [s2 r2] eqn:E2.
  cbv zeta in H2. rewrite Hw1 in H2. simpl in H2.
  destruct H2 as (_ & _ & w2 & Hw2 & H2).
  rewrite (proj2 (Z.ltb_ge _ _)) in H2 by lia.
  destruct H2 as (-> & (Ha2 & He2 & _) & _). simpl in Ha2, He2.
  eexists s1, _, s2, _, w2.
  split; [reflexivity|]. split; [done|]. split; [exact E2|].
  split; [done|]. split; [done|]. split; lia.
Qed.

(** $30.00 of the $47.75 go to escrow and come back. *)
Lemma escrow_roundtrip_restores_balances_witness :
  exists s1 r1 s2 r2 w2,
    WalletService.escrow_deposit customer_of 1 3000 "trade-9" "" 11
      deposit_completed = (s1, r1)
    /\ WalletService.release_escrow customer_of 1 3000 "trade-9" true "" 12 s1
        = (s2, r2)
    /\ wallets s2 !! 1%nat = Some w2
    /\ available_balance w2 = 4775
    /\ escrow_balance w2 = 0.
Proof.
  destruct (escrow_roundtrip_restores_balances customer_of deposit_completed
              1 funded_wallet 3000 "trade-9" "" "trade-9" "" 11 12)
    as (s1 & r1 & s2 & r2 & w2 & E1 & _ & E2 & _ & Hw2 & Ha & He);
    [reflexivity | simpl; lia | lia | simpl; lia |].
  exists s1, r1, s2, r2, w2.
  split; [exact E1|]. split; [exact E2|]. split; [exact Hw2|].
  split; [exact Ha | exact He].
Defined.

(** C6. An escrow deposit of the whole available balance succeeds, leaves
    [available_balance = 0] and adds the amount to [escrow_balance].  An
    escrow deposit of one cent more fails with the insufficient-funds error,
    adds no transaction row, and leaves the wallet with the same balances,
    lifetime counters and limits (and, when the wallet already has its Stripe
    customer, the whole store as it was). *)
Theorem escrow_deposit_boundary
    (new_customer_id : nat -> string) (s : Store) (user : nat) (w : UserWallet)
    (trade descr : string) (now : nat) :
  wallets s !! user = Some w ->
  (exists s1 r1 w1,
      WalletService.escrow_deposit new_customer_id user (available_balance w)
        trade descr now s = (s1, r1)
      /\ success r1 = true
      /\ wallets s1 !! user = Some w1
      /\ available_balance w1 = 0
      /\ escrow_balance w1 = escrow_balance w + available_balance w)
  /\ (exists s1 w1,
        WalletService.escrow_deposit new_customer_id user
          (available_balance w + 1) trade descr now s
          = (s1, Failure "Insufficient available balance for escrow deposit")
        /\ wallets s1 !! user = Some w1
        /\ same_funds w w1
        /\ transactions s1 = transactions s
        /\ bank_accounts s1 = bank_accounts s
        /\ (forall u, u <> user -> wallets s1 !! u = wallets s !! u)
        /\ (no_customer w = false -> s1 = s)).
Proof.
  intros Hw. split.
  - pose proof (escrow_deposit_spec new_customer_id user (available_balance w)
                  trade descr now s) as H.
    destruct (WalletService.escrow_deposit _ _ _ _ _ _ s) as [s1 r1] eqn:E1.
    cbv zeta in H. rewrite Hw in H. simpl in H.
    destruct H as (_ & _ & w1 & Hw1 & H).
    rewrite Z.leb_refl in H.
    destruct H as (-> & (Ha & He & _) & _). simpl in Ha, He.
    eexists s1, _, w1.
    split; [reflexivity|]. split; [done|]. split; [done|]. split; lia.
  - pose proof (escrow_deposit_spec new_customer_id user
                  (available_balance w + 1) trade descr now s) as H.
    pose proof (get_or_create_wallet_spec new_customer_id user s) as G.
    unfold WalletService.escrow_deposit in *.
    destruct (WalletService.get_or_create_wallet new_customer_id user s)
      as [s0 w0].
    destruct G as (_ & (Ha0 & _) & _ & _ & _ & G).
    rewrite Hw in Ha0. simpl in Ha0.
    unfold can_place_in_escrow in *. rewrite Ha0 in *.
    rewrite (proj2 (Z.leb_gt _ _)) in * by lia. simpl in *.
    rewrite Hw in H. simpl in H.
    rewrite (proj2 (Z.leb_gt _ _)) in H by lia.
    destruct H as (Hb & Ho & w1 & Hw1 & _ & Hsf & Htx).
    exists s0, w1. repeat split; try done; try apply Hsf.
    intros Hc. by destruct (G w Hw Hc).
Qed.

(** $47.75 can be put in escrow, $47.76 cannot. *)
Lemma escrow_deposit_boundary_witness :
  (exists s1 r1 w1,
      WalletService.escrow_deposit customer_of 1 4775 "trade-9" "" 11
        deposit_completed = (s1, r1)
      /\ success r1 = true
      /\ wallets s1 !! 1%nat = Some w1
      /\ available_balance w1 = 0
      /\ escrow_balance w1 = 4775)
  /\ WalletService.escrow_deposit customer_of 1 4776 "trade-9" "" 11
       deposit_completed
     = (deposit_completed,
        Failure "Insufficient available balance for escrow deposit").
Proof.
  destruct (escrow_deposit_boundary customer_of deposit_completed 1
              funded_wallet "trade-9" "" 11)
    as (Hfull & (s2 & w2 & E2 & _ & _ & _ & _ & _ & Hsame)); [reflexivity|].
  split; [exact Hfull|].
  rewrite <- (Hsame eq_refl) at 2. exact E2.
Defined.

(** ** Deposit intents *)

Section DepositIntent.

Variable new_customer_id : nat -> string.

Ltac funds := unfold same_funds; simpl; repeat split; congruence.

(** The row a deposit intent leaves behind. *)
Lemma create_deposit_intent_spec user amt pm descr reply s :
  let w0 := default new_wallet (wallets s !! user) in
  let '(s', r) :=
    WalletService.create_deposit_intent new_customer_id user amt pm descr
      reply s in
  bank_accounts s' = bank_accounts s
  /\ (forall u, u <> user -> wallets s' !! u = wallets s !! u)
  /\ (exists w', wallets s' !! user = Some w' /\ same_funds w0 w')
  /\ r = match reply with
         | IntentCreated i => DepositStarted i (length (transactions s))
         | StripeError e => DepositRejected e (length (transactions s))
         end
  /\ exists t,
       transactions s' = transactions s ++ [t]
       /\ wallet t = user
       /\ transaction_type t = ty_deposit
       /\ amount t = amt
       /\ status t = match reply with
                     | IntentCreated _ => processing
                     | StripeError _ => failed
                     end
       /\ platform_fee t =
            to_cents (dec_mul (dec_of_cents amt)
                        {| coefficient := 1; places := 2 |})
       /\ stripe_fee t =
            to_cents (dec_add
                        (dec_mul (dec_of_cents amt)
                           {| coefficient := 29; places := 3 |})
                        {| coefficient := 30; places := 2 |})
       /\ balance_before t = Some (available_balance w0)
       /\ balance_after t = None.
Proof.
  intros w0. unfold WalletService.create_deposit_intent.
  pose proof (get_or_create_wallet_spec new_customer_id user s) as H.
  destruct (WalletService.get_or_create_wallet new_customer_id user s)
    as [s1 w1].
  destruct H as (Hw1 & Hsf & Htx & Hb & Hothers & _). fold w0 in Hsf.
  assert (Ha : available_balance w1 = available_balance w0) by apply Hsf.
  unfold create_transaction.
  destruct reply as [i|e]; simpl; rewrite <- Htx, insert_last, Ha.
  all: split; [done|]; split; [done|]; split; [by exists w1|].
  all: split; [done|]; eexists; split; [reflexivity|]; by repeat split.
Qed.

End DepositIntent.

(** C7, as the code has it.  For a user whose wallet holds nothing yet, a
    deposit intent of $50.00 accepted by Stripe leaves the transaction in
    'processing' with a stripe fee of $1.75 (2.9% + $0.30) and a platform
    fee of $0.50, that is a net amount of $47.75; completing it yields
    [available_balance = $47.75] and [total_deposited = $50.00]. *)
Theorem deposit_50_scenario
    (new_customer_id : nat -> string) (s : Store) (user : nat)
    (pm descr intent : string) (charge : option string) (now : nat) :
  available_balance (default new_wallet (wallets s !! user)) = 0 ->
  total_deposited (default new_wallet (wallets s !! user)) = 0 ->
  exists s1 t s2 w2,
    WalletService.create_deposit_intent new_customer_id user 5000 pm descr
      (IntentCreated intent) s
      = (s1, DepositStarted intent (length (transactions s)))
    /\ transactions s1 !! length (transactions s) = Some t
    /\ status t = processing
    /\ stripe_fee t = 175
    /\ platform_fee t = 50
    /\ net_amount t = 4775
    /\ WalletService.complete_deposit (length (transactions s)) charge now s1
       = (s2, Return true)
    /\ wallets s2 !! user = Some w2
    /\ available_balance w2 = 4775
    /\ total_deposited w2 = 5000.
Proof.
  intros Ha0 Hd0.
  pose proof (create_deposit_intent_spec new_customer_id user 5000 pm descr
                (IntentCreated intent) s) as H.
  destruct (WalletService.create_deposit_intent _ _ _ _ _ _ s) as [s1 r1].
  cbv zeta in H.
  destruct H as (_ & _ & (w1 & Hw1 & Hsf) & -> & t & Htx & Hu & Hty & Hamt
                 & Hst & Hpf & Hsf' & Hbb & _).
  assert (Hid : transactions s1 !! length (transactions s) = Some t).
  { rewrite Htx. by rewrite lookup_app_r, Nat.sub_diag by lia. }
  change (to_cents _) with 50 in Hpf. change (to_cents _) with 175 in Hsf'.
  assert (Hnet : net_amount t = 4775).
  { unfold net_amount. rewrite Hamt, Hpf, Hsf'. reflexivity. }
  rewrite <- Hu in Hw1.
  pose proof (complete_deposit_processing s1 _ charge now t w1 Hid Hty Hst Hw1)
    as E2.
  destruct Hsf as (Ha1 & _ & Hd1 & _).
  eexists s1, t, _, _.
  split; [reflexivity|]. split; [exact Hid|]. split; [exact Hst|].
  split; [exact Hsf'|]. split; [exact Hpf|]. split; [exact Hnet|].
  split; [exact E2|].
  split; [simpl; rewrite Hu; apply lookup_insert_eq|]. simpl.
  split; lia.
Qed.

(** The scenario on a new database. *)
Lemma deposit_50_scenario_witness :
  exists s1 t s2 w2,
    WalletService.create_deposit_intent customer_of 1 5000 "pm_card" ""
      (IntentCreated "pi_1") (fresh [first_bank]) = (s1, DepositStarted "pi_1" 0)
    /\ transactions s1 !! 0%nat = Some t
    /\ status t = processing
    /\ net_amount t = 4775
    /\ WalletService.complete_deposit 0 None 10 s1 = (s2, Return true)
    /\ wallets s2 !! 1%nat = Some w2
    /\ available_balance w2 = 4775
    /\ total_deposited w2 = 5000.
Proof.
  destruct (deposit_50_scenario customer_of (fresh [first_bank]) 1 "pm_card" ""
              "pi_1" None 10)
    as (s1 & t & s2 & w2 & E1 & Hid & Hst & _ & _ & Hnet & E2 & Hw2 & Ha & Hd);
    [reflexivity | reflexivity |].
  exists s1, t, s2, w2.
  split; [exact E1|]. split; [exact Hid|]. split; [exact Hst|].
  split; [exact Hnet|]. split; [exact E2|]. split; [exact Hw2|].
  split; [exact Ha | exact Hd].
Defined.

(** C7, as the specification words it, fails: after the $50.00 deposit of
    the sample run the stored stripe fee is not $1.45, the net amount is not
    $48.35 and the wallet does not hold $48.35. *)
Lemma deposit_50_is_not_48_35 :
  ~ (exists t w,
        transactions deposit_completed !! 0%nat = Some t
        /\ wallets deposit_completed !! 1%nat = Some w
        /\ stripe_fee t = 145
        /\ platform_fee t = 50
        /\ net_amount t = 4835
        /\ available_balance w = 4835
        /\ total_deposited w = 5000).
Proof.
  intros (t & w & Ht & Hw & Hfee & _).
  vm_compute in Ht. injection Ht as <-. vm_compute in Hfee. discriminate.
Qed.

(** ** Withdrawal intents *)

Lemma resolve_destination_sound s user bank b :
  resolve_destination s user bank = Some b ->
  bank_user b = user /\ is_active b = true
  /\ match bank with Some id => bank_id b = id | None => is_default b = true end.
Proof.
  unfold resolve_destination, get_bank_account, default_bank_account.
  destruct bank as [id|]; intros H; apply find_some in H as [_ H];
    repeat (apply andb_prop in H as [H ?]);
    repeat match goal with
           | X : bool_decide _ = true |- _ => apply bool_decide_eq_true_1 in X
           end; done.
Qed.

(** C9, as the code has it.  [create_withdrawal] first checks
    [can_withdraw]: if it fails the call returns the insufficient-balance
    error.  Otherwise it looks for the destination, which is the ACTIVE
    account of the user with the given id or, without an id, the user's first
    active default account; [is_verified] is not consulted.  Without such
    an account the call returns 'Bank account not found' / 'No default bank
    account found'.  Neither failure adds a transaction row.  On success
    one row is added, a withdrawal in 'processing' whose [balance_before] is
    the available balance.  In all three cases the wallet keeps its
    balances: nothing is deducted yet. *)
Theorem create_withdrawal_destination
    (new_customer_id : nat -> string) (s : Store) (user : nat) (amt : Z)
    (bank : option nat) (descr : string) :
  let w0 := default new_wallet (wallets s !! user) in
  let '(s', r) :=
    WalletService.create_withdrawal new_customer_id user amt bank descr s in
  (exists w', wallets s' !! user = Some w' /\ same_funds w0 w')
  /\ match can_withdraw w0 amt, resolve_destination s user bank with
     | false, _ =>
         r = Failure "Insufficient available balance for withdrawal"
         /\ transactions s' = transactions s
     | true, None =>
         r = Failure (match bank with
                      | Some _ => "Bank account not found"
                      | None => "No default bank account found"
                      end)
         /\ transactions s' = transactions s
     | true, Some b =>
         bank_user b = user
         /\ is_active b = true
         /\ r = WithdrawalStarted (length (transactions s)) (bank_name b)
         /\ exists t,
              transactions s' = transactions s ++ [t]
              /\ wallet t = user
              /\ transaction_type t = ty_withdrawal
              /\ amount t = amt
              /\ status t = processing
              /\ balance_before t = Some (available_balance w0)
              /\ balance_after t = None
     end.
Proof.
  intros w0. unfold WalletService.create_withdrawal.
  pose proof (get_or_create_wallet_spec new_customer_id user s) as H.
  destruct (WalletService.get_or_create_wallet new_customer_id user s)
    as [s1 w1].
  destruct H as (Hw1 & Hsf & Htx & Hb & Hothers & _). fold w0 in Hsf.
  assert (Ha : available_balance w1 = available_balance w0) by apply Hsf.
  assert (Hres : forall b, match b with
                           | Some id => get_bank_account s1 id user
                           | None => default_bank_account s1 user
                           end = resolve_destination s user b).
  { intros [id|]; unfold resolve_destination, get_bank_account,
      default_bank_account; by rewrite Hb. }
  unfold can_withdraw. rewrite Ha.
  destruct (amt <=? available_balance w0); simpl.
  - specialize (Hres bank).
    destruct (resolve_destination s user bank) as [b|] eqn:Hb'.
    + destruct (resolve_destination_sound _ _ _ _ Hb') as (Hu & Hact & _).
      assert (Hfound :
        match bank with
        | Some id => match get_bank_account s1 id user with
                     | Some b => inl b | None => inr "Bank account not found"
                     end
        | None => match default_bank_account s1 user with
                  | Some b => inl b
                  | None => inr "No default bank account found"
                  end
        end = inl b) by (destruct bank; by rewrite Hres).
      rewrite Hfound. simpl. rewrite <- Htx, insert_last.
      split; [by exists w1|]. split; [done|]. split; [done|]. split; [done|].
      eexists. split; [reflexivity|]. by repeat split.
    + destruct bank; rewrite Hres; simpl; (split; [by exists w1|]); by rewrite Htx.
  - split; [by exists w1|]. by rewrite Htx.
Qed.

(** A withdrawal of $40.00 to the default account of user 1. *)
Lemma create_withdrawal_destination_witness :
  exists s' t,
    WalletService.create_withdrawal customer_of 1 4000 None "" deposit_completed
      = (s', WithdrawalStarted 1 "First Bank")
    /\ transactions s' = transactions deposit_completed ++ [t]
    /\ status t = processing.
Proof.
  pose proof (create_withdrawal_destination customer_of deposit_completed 1
                4000 None "") as H.
  destruct (WalletService.create_withdrawal customer_of 1 4000 None ""
              deposit_completed) as [s' r].
  destruct H as (_ & _ & _ & -> & t & Htx & _ & _ & _ & Hst & _).
  exists s', t. split; [reflexivity|]. split; [exact Htx | exact Hst].
Defined.

(** C9, as the specification words it, fails: the default account of user 1
    is active but not verified, and the withdrawal to it is accepted. *)
Lemma withdrawal_to_unverified_account :
  exists b,
    resolve_destination deposit_completed 1 None = Some b
    /\ is_verified b = false
    /\ success (WalletService.create_withdrawal customer_of 1 4000 None ""
                  deposit_completed).2 = true.
Proof.
  exists first_bank. split; [reflexivity|]. split; reflexivity.
Qed.

(** ** Where the ledger departs from its specification *)

(** C1, at the failing run.  All amounts are positive and every call
    succeeds; the withdrawal intent passes [can_withdraw] when it is made,
    the wallet holds $45.80 when the withdrawal is completed, and the
    completion leaves [available_balance = -$44.20]. *)
Theorem complete_withdrawal_overdraws :
  let before := run customer_of (take 4 overdraft_run) (fresh [first_bank]) in
  let after := run customer_of overdraft_run (fresh [first_bank]) in
  (exists w, wallets before !! 1%nat = Some w
             /\ available_balance w = 4580 /\ escrow_balance w = 0)
  /\ WalletService.complete_withdrawal 1 12 before = (after, Return true)
  /\ exists w, wallets after !! 1%nat = Some w
               /\ available_balance w = -4420
               /\ available_balance w < 0.
Proof.
  split; [|split].
  - eexists. split; [reflexivity|]. split; reflexivity.
  - reflexivity.
  - eexists. split; [reflexivity|]. split; [reflexivity|]. reflexivity.
Qed.

(** C2, at the failing run.  The second deposit is completed with the
    opening snapshot taken when it was requested ($0.00) and the closing
    snapshot taken after the first deposit was credited ($95.50): the
    difference is $95.50, the signed effect of the deposit is $47.75. *)
Theorem stale_snapshot_on_completion :
  let s := run customer_of interleaved_deposits (fresh [first_bank]) in
  exists t,
    transactions s !! 1%nat = Some t
    /\ status t = completed
    /\ balance_before t = Some 0
    /\ balance_after t = Some 9550
    /\ spec_signed_effect t = 4775
    /\ 9550 - 0 <> spec_signed_effect t.
Proof.
  eexists. split; [reflexivity|]. repeat split. discriminate.
Qed.

(** C4, at the failing input.  The completed deposit of $50.00 is refunded
    twice.  Both calls succeed; the second finds the original already
    'refunded', credits the $50.00 again and appends a second refund row. *)
Theorem refund_transaction_twice :
  let '(s1, r1) :=
    WalletService.refund_transaction 0 "first" 11 deposit_completed in
  let '(s2, r2) := WalletService.refund_transaction 0 "second" 12 s1 in
  r1 = Refunded 1 5000
  /\ status <$> transactions s1 !! 0%nat = Some refunded
  /\ available_balance <$> wallets s1 !! 1%nat = Some 9775
  /\ r2 = Refunded 2 5000
  /\ available_balance <$> wallets s2 !! 1%nat = Some 14775
  /\ length (transactions s2) = 3%nat.
Proof. vm_compute. by repeat split. Qed.

(** C8, at the failing inputs.  The webhook's failure branch takes a deposit
    out of the terminal status 'completed' into 'failed' (its credit stays
    in the wallet), and [refund_transaction] takes a deposit out of the
    terminal status 'failed' into 'refunded' (and credits its amount). *)
Theorem terminal_status_overwritten :
  (let s1 := run customer_of (take 2 succeeded_then_failed) (fresh []) in
   let s2 := run customer_of succeeded_then_failed (fresh []) in
   exists t1 t2,
     transactions s1 !! 0%nat = Some t1 /\ transactions s2 !! 0%nat = Some t2
     /\ status t1 = completed /\ terminal (status t1) = true
     /\ status t2 = failed
     /\ available_balance <$> wallets s2 !! 1%nat = Some 4775)
  /\ (let s1 := run customer_of (take 1 failed_then_refunded) (fresh []) in
      let s2 := run customer_of failed_then_refunded (fresh []) in
      exists t1 t2,
        transactions s1 !! 0%nat = Some t1 /\ transactions s2 !! 0%nat = Some t2
        /\ status t1 = failed /\ terminal (status t1) = true
        /\ status t2 = refunded
        /\ available_balance <$> wallets s2 !! 1%nat = Some 5000).
Proof.
  split; eexists _, _; (split; [reflexivity|]); (split; [reflexivity|]);
    by repeat split.
Qed.


(** ** What every run keeps *)

Section Invariant.

Variable new_customer_id : nat -> string.

Implicit Types (s : Store) (t : WalletTransaction) (w : UserWallet).

Lemma consistent_fresh banks : consistent (fresh banks).
Proof. split; [intros id t H | intros u w H]; by simpl in H. Qed.

Lemma consistent_save_wallet s u w :
  consistent s -> 0 <= escrow_balance w -> consistent (save_wallet u w s).
Proof.
  intros [Hfk Hesc] Hw. split; simpl.
  - intros id t Hid. destruct (decide (u = wallet t)) as [->|Hne].
    + rewrite lookup_insert_eq. by eexists.
    + rewrite lookup_insert_ne by done. by eapply Hfk.
  - intros u' w' H. destruct (decide (u = u')) as [->|Hne].
    + rewrite lookup_insert_eq in H. by injection H as <-.
    + rewrite lookup_insert_ne in H by done. by eapply Hesc.
Qed.

Lemma consistent_create_transaction s t :
  consistent s -> is_Some (wallets s !! wallet t) ->
  consistent (create_transaction t s).1.
Proof.
  intros [Hfk Hesc] Hw. split; simpl; [|done].
  intros id t' Hid. apply lookup_app_Some in Hid as [Hid | [_ Hid]].
  - by eapply Hfk.
  - apply list_lookup_singleton_Some in Hid as [_ <-]. done.
Qed.

Lemma consistent_save_transaction s id t :
  consistent s -> is_Some (wallets s !! wallet t) ->
  consistent (save_transaction id t s).
Proof.
  intros [Hfk Hesc] Hw. split; simpl; [|done].
  intros j t' Hj. apply list_lookup_insert_Some in Hj as [(_ & <- & _) | [_ Hj]].
  - done.
  - by eapply Hfk.
Qed.

Lemma consistent_get_or_create_wallet s user :
  consistent s ->
  let '(s1, w1) := WalletService.get_or_create_wallet new_customer_id user s in
  consistent s1 /\ wallets s1 !! user = Some w1 /\ 0 <= escrow_balance w1.
Proof.
  intros Hs. unfold WalletService.get_or_create_wallet.
  destruct (wallets s !! user) as [w|] eqn:Hw.
  - assert (0 <= escrow_balance w) by (by eapply (proj2 Hs)).
    destruct (no_customer w); simpl.
    + split; [by apply consistent_save_wallet|].
      split; [apply lookup_insert_eq | done].
    + done.
  - assert (consistent (save_wallet user new_wallet s))
      by (by apply consistent_save_wallet).
    simpl. split; [by apply consistent_save_wallet|].
    split; [apply lookup_insert_eq | done].
Qed.

(** Saving a wallet and then rows that point to it. *)
Ltac rows :=
  repeat first
    [ apply consistent_save_transaction
    | apply consistent_create_transaction
    | apply consistent_save_wallet ];
  simpl; rewrite ?lookup_insert_eq; eauto; try lia.

Lemma consistent_step s o :
  consistent s -> positive_amount o -> consistent (step new_customer_id s o).
Proof.
  intros Hs Hpos. destruct o; simpl in *.
  - (* create_deposit_intent *)
    unfold WalletService.create_deposit_intent.
    pose proof (consistent_get_or_create_wallet s user Hs) as H.
    destruct (WalletService.get_or_create_wallet _ user s) as [s1 w1].
    destruct H as (Hs1 & Hw1 & He1).
    destruct reply; simpl; rows.
  - (* complete_deposit *)
    unfold WalletService.complete_deposit, get_transaction_of_type.
    destruct (transactions s !! id) as [t|] eqn:Hid; [|done].
    destruct (decide _); [|done].
    destruct (bool_decide _); [|done]. simpl.
    destruct (wallets s !! wallet t) as [w|] eqn:Hw; [|done]. simpl.
    assert (0 <= escrow_balance w) by (by eapply (proj2 Hs)). rows.
  - (* escrow_deposit *)
    unfold WalletService.escrow_deposit.
    pose proof (consistent_get_or_create_wallet s user Hs) as H.
    destruct (WalletService.get_or_create_wallet _ user s) as [s1 w1].
    destruct H as (Hs1 & Hw1 & He1).
    unfold move_to_escrow.
    destruct (negb (can_place_in_escrow w1 amt)); simpl; [done|]. rows.
  - (* release_escrow *)
    unfold WalletService.release_escrow.
    pose proof (consistent_get_or_create_wallet s user Hs) as H.
    destruct (WalletService.get_or_create_wallet _ user s) as [s1 w1].
    destruct H as (Hs1 & Hw1 & He1).
    unfold release_from_escrow.
    destruct (escrow_balance w1 <? amt) eqn:Hlt; simpl; [done|].
    apply Z.ltb_ge in Hlt. rows.
  - (* shipping_payment *)
    unfold WalletService.shipping_payment.
    pose proof (consistent_get_or_create_wallet s user Hs) as H.
    destruct (WalletService.get_or_create_wallet _ user s) as [s1 w1].
    destruct H as (Hs1 & Hw1 & He1).
    destruct (negb (can_withdraw w1 amt)); simpl; [done|]. rows.
  - (* create_withdrawal *)
    unfold WalletService.create_withdrawal.
    pose proof (consistent_get_or_create_wallet s user Hs) as H.
    destruct (WalletService.get_or_create_wallet _ user s) as [s1 w1].
    destruct H as (Hs1 & Hw1 & He1).
    destruct (negb (can_withdraw w1 amt)); simpl; [done|].
    destruct bank as [b|];
      [destruct (get_bank_account s1 b user)
      |destruct (default_bank_account s1 user)]; simpl; try done; rows.
  - (* complete_withdrawal *)
    unfold WalletService.complete_withdrawal, get_transaction_of_type.
    destruct (transactions s !! id) as [t|] eqn:Hid; [|done].
    destruct (decide _); [|done].
    destruct (bool_decide _); [|done]. simpl.
    destruct (wallets s !! wallet t) as [w|] eqn:Hw; [|done]. simpl.
    assert (0 <= escrow_balance w) by (by eapply (proj2 Hs)). rows.
  - (* refund_transaction *)
    unfold WalletService.refund_transaction.
    destruct (transactions s !! id) as [t|] eqn:Hid; [|done].
    destruct (wallets s !! wallet t) as [w|] eqn:Hw; [|done]. simpl.
    assert (0 <= escrow_balance w) by (by eapply (proj2 Hs)). rows.
  - (* stripe_webhook *)
    destruct d as [| |[[id|] charge|[id|]|]]; simpl; try done.
    + unfold WalletService.complete_deposit, get_transaction_of_type.
      destruct (transactions s !! id) as [t|] eqn:Hid; [|done].
      destruct (decide _); [|done].
      destruct (bool_decide _); [|done]. simpl.
      destruct (wallets s !! wallet t) as [w|] eqn:Hw; [|done]. simpl.
      assert (0 <= escrow_balance w) by (by eapply (proj2 Hs)). rows.
    + destruct (transactions s !! id) as [t|] eqn:Hid; [|done]. simpl.
      apply consistent_save_transaction; [done|]. simpl. by eapply (proj1 Hs).
Qed.

Lemma consistent_run ops s :
  consistent s -> Forall positive_amount ops ->
  consistent (run new_customer_id ops s).
Proof.
  revert s. induction ops as [|o ops IH]; intros s Hs Hall; [done|].
  apply Forall_cons in Hall as [Ho Hall]. simpl.
  apply IH; [|done]. by apply consistent_step.
Qed.

(** X19. Whatever calls with positive amounts are made on a new database,
    and whether they succeed or not, no escrow balance becomes negative. *)
Lemma escrow_balance_never_negative ops banks u w :
  Forall positive_amount ops ->
  wallets (run new_customer_id ops (fresh banks)) !! u = Some w ->
  0 <= escrow_balance w.
Proof.
  intros Hall. apply (consistent_run ops (fresh banks)); [|done].
  apply consistent_fresh.
Qed.

(** The wallet of every row exists. *)
Lemma transaction_wallet_exists ops banks id t :
  Forall positive_amount ops ->
  transactions (run new_customer_id ops (fresh banks)) !! id = Some t ->
  is_Some (wallets (run new_customer_id ops (fresh banks)) !! wallet t).
Proof.
  intros Hall. apply (consistent_run ops (fresh banks)); [|done].
  apply consistent_fresh.
Qed.

End Invariant.


(** ** Snapshots *)

Section Snapshots.

Variable new_customer_id : nat -> string.

Implicit Types (s : Store) (t : WalletTransaction) (w : UserWallet).

Ltac bracket :=
  eexists _, _; split; [eassumption|]; split; [eassumption|];
  unfold spec_signed_effect;
  repeat match goal with H : _ = _ |- _ => rewrite H end; lia.

(** The calls that create and complete their row at once take both
    snapshots around the one mutation they perform. *)
Lemma escrow_deposit_bracketed user amt trade descr now s s' r :
  WalletService.escrow_deposit new_customer_id user amt trade descr now s
    = (s', r) ->
  success r = true ->
  exists t, transactions s' = transactions s ++ [t]
            /\ status t = completed /\ bracketed t.
Proof.
  intros E Hok.
  pose proof (escrow_deposit_spec new_customer_id user amt trade descr now s)
    as H.
  rewrite E in H. cbv zeta in H. destruct H as (_ & _ & w' & _ & H).
  destruct (amt <=? _); [|by destruct H as (-> & _)].
  destruct H as (_ & _ & t & Htx & _ & Hty & Hamt & Hst & Hpf & Hsf & Hb & Ha).
  exists t. split; [done|]. split; [done|]. bracket.
Qed.

Lemma release_escrow_bracketed user amt trade to_available descr now s s' r :
  WalletService.release_escrow new_customer_id user amt trade to_available
    descr now s = (s', r) ->
  success r = true ->
  exists t, transactions s' = transactions s ++ [t]
            /\ status t = completed /\ bracketed t.
Proof.
  intros E Hok.
  pose proof (release_escrow_spec new_customer_id user amt trade to_available
                descr now s) as H.
  rewrite E in H. cbv zeta in H. destruct H as (_ & _ & w' & _ & H).
  destruct (_ <? amt); [by destruct H as (-> & _)|].
  destruct H as (_ & _ & t & Htx & _ & Hty & Hamt & Hst & Hpf & Hsf & Hb & Ha).
  exists t. split; [done|]. split; [done|].
  destruct to_available; bracket.
Qed.

Lemma shipping_payment_bracketed user amt trade descr now s s' r :
  WalletService.shipping_payment new_customer_id user amt trade descr now s
    = (s', r) ->
  success r = true ->
  exists t, transactions s' = transactions s ++ [t]
            /\ status t = completed /\ bracketed t.
Proof.
  unfold WalletService.shipping_payment.
  pose proof (get_or_create_wallet_spec new_customer_id user s) as H.
  destruct (WalletService.get_or_create_wallet new_customer_id user s)
    as [s1 w1].
  destruct H as (_ & _ & Htx & _).
  destruct (negb (can_withdraw w1 amt)); simpl; intros [= <- <-] Hok; [done|].
  eexists. split; [simpl; by rewrite insert_last, Htx|]. split; [done|].
  eexists _, _. split; [reflexivity|]. split; [reflexivity|].
  unfold spec_signed_effect. simpl. lia.
Qed.

Lemma refund_transaction_bracketed id reason now s s' r :
  WalletService.refund_transaction id reason now s = (s', r) ->
  success r = true ->
  exists t, transactions s' !! length (transactions s) = Some t
            /\ transaction_type t = ty_refund
            /\ status t = completed /\ bracketed t.
Proof.
  unfold WalletService.refund_transaction.
  destruct (transactions s !! id) as [original|] eqn:Hid;
    [|by intros [= <- <-]].
  destruct (wallets s !! wallet original) as [w|]; [|by intros [= <- <-]].
  simpl. intros [= <- <-] _.
  assert (id <> length (transactions s))
    by (apply lookup_lt_Some in Hid; lia).
  eexists. split.
  { simpl. rewrite list_lookup_insert_ne by done.
    rewrite insert_last. by rewrite lookup_app_r, Nat.sub_diag by lia. }
  split; [done|]. split; [done|].
  eexists _, _. split; [reflexivity|]. split; [reflexivity|].
  unfold spec_signed_effect. simpl. lia.
Qed.

(** The completion of a deposit writes the closing snapshot from the
    balance it finds, and leaves the opening snapshot of the intent. *)
Lemma complete_deposit_snapshots s id charge now t w :
  transactions s !! id = Some t ->
  transaction_type t = ty_deposit ->
  status t = processing ->
  wallets s !! wallet t = Some w ->
  exists t1,
    transactions (WalletService.complete_deposit id charge now s).1 !! id
      = Some t1
    /\ balance_before t1 = balance_before t
    /\ balance_after t1 = Some (available_balance w + spec_signed_effect t1).
Proof.
  intros Hid Hty Hst Hw.
  rewrite (complete_deposit_processing _ _ charge now _ _ Hid Hty Hst Hw).
  simpl. eexists. split.
  { apply list_lookup_insert_eq. by eapply lookup_lt_Some. }
  split; [done|]. unfold spec_signed_effect. simpl. by rewrite Hty.
Qed.

End Snapshots.

(** ** Refunds *)

(** [refund_transaction] does not look at the status of the original: it
    succeeds on any row whose wallet exists, credits the amount and marks the
    row 'refunded'. *)
Lemma refund_transaction_any_status (s : Store) (id : nat) (reason : string)
    (now : nat) (original : WalletTransaction) (w : UserWallet) :
  transactions s !! id = Some original ->
  wallets s !! wallet original = Some w ->
  exists s',
    WalletService.refund_transaction id reason now s
      = (s', Refunded (length (transactions s)) (amount original))
    /\ available_balance <$> wallets s' !! wallet original
       = Some (available_balance w + amount original)
    /\ transactions s' !! id = Some (set_status original refunded).
Proof.
  intros Hid Hw. unfold WalletService.refund_transaction.
  rewrite Hid, Hw. simpl. eexists. split; [reflexivity|]. simpl. split.
  - by rewrite lookup_insert_eq.
  - apply list_lookup_insert_eq. rewrite length_insert, length_app.
    apply lookup_lt_Some in Hid. lia.
Qed.


(** ** Solvency *)

Section Solvency.

Variable new_customer_id : nat -> string.

Implicit Types (s : Store) (t : WalletTransaction) (w : UserWallet).

Lemma solvent_save_wallet s u w :
  solvent s -> 0 <= available_balance w -> solvent (save_wallet u w s).
Proof.
  intros Hs Hw u' w'. simpl. destruct (decide (u = u')) as [->|Hne].
  - rewrite lookup_insert_eq. by intros [= <-].
  - rewrite lookup_insert_ne by done. apply Hs.
Qed.

Lemma solvent_get_or_create_wallet s user :
  solvent s ->
  let '(s1, w1) := WalletService.get_or_create_wallet new_customer_id user s in
  solvent s1 /\ 0 <= available_balance w1.
Proof.
  intros Hs. unfold WalletService.get_or_create_wallet.
  destruct (wallets s !! user) as [w|] eqn:Hw.
  - assert (0 <= available_balance w) by (by eapply Hs).
    destruct (no_customer w); simpl; [|done].
    split; [by apply solvent_save_wallet | done].
  - simpl. split; [|done].
    apply solvent_save_wallet; [|done]. by apply solvent_save_wallet.
Qed.

(** Every call other than the two completions, the refund and the webhook
    keeps all wallets solvent. *)
Lemma guarded_calls_keep_solvent s o :
  solvent s -> guarded o -> positive_amount o ->
  solvent (step new_customer_id s o).
Proof.
  intros Hs Hg Hpos. destruct o; simpl in *; try done.
  - unfold WalletService.create_deposit_intent.
    pose proof (solvent_get_or_create_wallet s user Hs) as H.
    destruct (WalletService.get_or_create_wallet _ user s) as [s1 w1].
    destruct H as [Hs1 Hw1]. by destruct reply.
  - unfold WalletService.escrow_deposit.
    pose proof (solvent_get_or_create_wallet s user Hs) as H.
    destruct (WalletService.get_or_create_wallet _ user s) as [s1 w1].
    destruct H as [Hs1 Hw1]. unfold move_to_escrow, can_place_in_escrow.
    destruct (amt <=? available_balance w1) eqn:Hle; simpl; [|done].
    apply Z.leb_le in Hle.
    apply (solvent_save_wallet (create_transaction _ s1).1); [done|simpl; lia].
  - unfold WalletService.release_escrow.
    pose proof (solvent_get_or_create_wallet s user Hs) as H.
    destruct (WalletService.get_or_create_wallet _ user s) as [s1 w1].
    destruct H as [Hs1 Hw1]. unfold release_from_escrow.
    destruct (escrow_balance w1 <? amt); simpl; [done|].
    apply (solvent_save_wallet (create_transaction _ s1).1); [done|].
    destruct to_available; simpl; lia.
  - unfold WalletService.shipping_payment.
    pose proof (solvent_get_or_create_wallet s user Hs) as H.
    destruct (WalletService.get_or_create_wallet _ user s) as [s1 w1].
    destruct H as [Hs1 Hw1]. unfold can_withdraw.
    destruct (amt <=? available_balance w1) eqn:Hle; simpl; [|done].
    apply Z.leb_le in Hle.
    apply (solvent_save_wallet (create_transaction _ s1).1); [done|simpl; lia].
  - unfold WalletService.create_withdrawal.
    pose proof (solvent_get_or_create_wallet s user Hs) as H.
    destruct (WalletService.get_or_create_wallet _ user s) as [s1 w1].
    destruct H as [Hs1 Hw1].
    destruct (negb (can_withdraw w1 amt)); simpl; [done|].
    destruct bank as [b|];
      [destruct (get_bank_account s1 b user)
      |destruct (default_bank_account s1 user)]; done.
Qed.

(** [complete_withdrawal] subtracts the amount of any processing
    withdrawal, whatever the wallet holds by then. *)
Lemma complete_withdrawal_unguarded s id now t w :
  transactions s !! id = Some t ->
  transaction_type t = ty_withdrawal ->
  status t = processing ->
  wallets s !! wallet t = Some w ->
  exists s',
    WalletService.complete_withdrawal id now s = (s', Return true)
    /\ available_balance <$> wallets s' !! wallet t
       = Some (available_balance w - amount t).
Proof.
  intros Hid Hty Hst Hw. unfold WalletService.complete_withdrawal.
  rewrite (get_transaction_of_type_hit _ _ _ _ Hid Hty).
  rewrite Hst, bool_decide_eq_true_2 by done. simpl. rewrite Hw.
  eexists. split; [reflexivity|]. simpl. by rewrite lookup_insert_eq.
Qed.

End Solvency.

(** ** The webhook *)

(** The failure branch of the webhook writes 'failed' over any status. *)
Lemma payment_failed_any_status (s : Store) (id now : nat)
    (t : WalletTransaction) :
  transactions s !! id = Some t ->
  exists s',
    stripe_webhook (verified (payment_intent_payment_failed (Some id))) now s
      = (s', 200%nat)
    /\ transactions s' !! id = Some (set_status t failed)
    /\ wallets s' = wallets s.
Proof.
  intros Hid. simpl. rewrite Hid. eexists. split; [reflexivity|].
  split; [|done]. simpl. apply list_lookup_insert_eq. by eapply lookup_lt_Some.
Qed.

(** * Further properties of the ledger *)

(** ** Withdrawal completion *)

(** X1. A withdrawal in status 'processing' is deducted once: the first
    [complete_withdrawal] returns [True], takes the amount off
    [available_balance], adds it to [total_withdrawn] and completes the row
    with the new balance as closing snapshot; a second call returns [False]
    and leaves the store as it is.  On an unknown id, on a row that is not
    a withdrawal, or on a status other than 'processing', the call returns
    [False] and writes nothing. *)
Theorem complete_withdrawal_deducts_once
    (s : Store) (id : nat) (now now' : nat) :
  (forall t w,
      transactions s !! id = Some t ->
      transaction_type t = ty_withdrawal ->
      status t = processing ->
      wallets s !! wallet t = Some w ->
      exists s1 w1 t1,
        WalletService.complete_withdrawal id now s = (s1, Return true)
        /\ wallets s1 !! wallet t = Some w1
        /\ available_balance w1 = available_balance w - amount t
        /\ total_withdrawn w1 = total_withdrawn w + amount t
        /\ escrow_balance w1 = escrow_balance w
        /\ total_deposited w1 = total_deposited w
        /\ transactions s1 !! id = Some t1
        /\ status t1 = completed
        /\ balance_after t1 = Some (available_balance w - amount t)
        /\ completed_at t1 = Some now
        /\ length (transactions s1) = length (transactions s)
        /\ WalletService.complete_withdrawal id now' s1 = (s1, Return false))
  /\ ((transactions s !! id = None
       \/ exists t, transactions s !! id = Some t
            /\ (transaction_type t <> ty_withdrawal \/ status t <> processing)) ->
      WalletService.complete_withdrawal id now s = (s, Return false)).
Proof.
  assert (Hguard : forall s0 n0,
    (transactions s0 !! id = None
     \/ exists t, transactions s0 !! id = Some t
          /\ (transaction_type t <> ty_withdrawal \/ status t <> processing)) ->
    WalletService.complete_withdrawal id n0 s0 = (s0, Return false)).
  { intros s0 n0. unfold WalletService.complete_withdrawal,
      get_transaction_of_type.
    intros [-> | (t & -> & Hno)]; [done|].
    destruct (decide (transaction_type t = ty_withdrawal)) as [Hty|]; [|done].
    destruct Hno as [Hno | Hno]; [done|].
    by rewrite bool_decide_eq_false_2. }
  split; [|apply Hguard].
  intros t w Hid Hty Hst Hw.
  assert (Hlt : (id < length (transactions s))%nat) by by eapply lookup_lt_Some.
  assert (E : WalletService.complete_withdrawal id now s =
    (save_transaction id
       (mark_completed t (available_balance w - amount t) now)
       (save_wallet (wallet t)
          (set_total_withdrawn
             (set_available w (available_balance w - amount t))
             (total_withdrawn w + amount t)) s),
     Return true)).
  { unfold WalletService.complete_withdrawal.
    rewrite (get_transaction_of_type_hit _ _ _ _ Hid Hty).
    rewrite Hst, bool_decide_eq_true_2 by done. simpl. by rewrite Hw. }
  rewrite E. eexists _, _, _. split; [reflexivity|].
  split; [simpl; by rewrite lookup_insert_eq|].
  do 4 (split; [done|]).
  split; [simpl; by rewrite list_lookup_insert_eq|].
  do 3 (split; [done|]).
  split; [simpl; by rewrite length_insert|].
  apply Hguard. right. eexists. split.
  - simpl. by rewrite list_lookup_insert_eq.
  - by right.
Qed.

(** The sample withdrawal of $40.00 is deducted once from $47.75. *)
Lemma complete_withdrawal_deducts_once_witness :
  exists s1 w1,
    WalletService.complete_withdrawal 1 20 withdrawal_requested
      = (s1, Return true)
    /\ wallets s1 !! 1%nat = Some w1
    /\ available_balance w1 = 775
    /\ total_withdrawn w1 = 4000
    /\ WalletService.complete_withdrawal 1 21 s1 = (s1, Return false)
    /\ WalletService.complete_withdrawal 0 20 withdrawal_requested
      = (withdrawal_requested, Return false).
Proof.
  destruct (complete_withdrawal_deducts_once withdrawal_requested 1 20 21)
    as [Hfirst _].
  destruct (complete_withdrawal_deducts_once withdrawal_requested 0 20 21)
    as [_ Hmiss].
  edestruct Hfirst
    as (s1 & w1 & t1 & H1 & Hw & Ha & Hd & _ & _ & _ & _ & _ & _ & _ & H2);
    [reflexivity ..|].
  exists s1, w1.
  split; [exact H1|]. split; [exact Hw|]. split; [exact Ha|].
  split; [exact Hd|]. split; [exact H2|].
  apply Hmiss. right. eexists. split; [reflexivity|]. left. discriminate.
Defined.

(** ** The lazily created wallet *)

(** X2. [get_or_create_wallet] is idempotent: after one call, a second call
    for the same user writes nothing and returns the same wallet.  The
    wallet it returns is the row stored for the user, it carries a Stripe
    customer reference, and it holds the funds the user had before (those
    of a new wallet, all zero, if there was none). *)
Theorem get_or_create_wallet_idempotent
    (new_customer_id : nat -> string) (user : nat) (s : Store) :
  let '(s1, w1) := WalletService.get_or_create_wallet new_customer_id user s in
  WalletService.get_or_create_wallet new_customer_id user s1 = (s1, w1)
  /\ wallets s1 !! user = Some w1
  /\ is_Some (stripe_customer_id w1)
  /\ same_funds (default new_wallet (wallets s !! user)) w1.
Proof.
  pose proof (get_or_create_wallet_spec new_customer_id user s) as Hspec.
  unfold WalletService.get_or_create_wallet in *.
  destruct (wallets s !! user) as [w|] eqn:Hw; simpl in *.
  - destruct (no_customer w) eqn:Hc; simpl in *.
    + rewrite lookup_insert_eq. simpl.
      destruct Hspec as (H1 & H2 & _).
      split; [|by eauto].
      destruct (no_customer (set_customer w (new_customer_id user))); [|done].
      unfold save_wallet. simpl. by rewrite insert_insert_eq.
    + rewrite Hw, Hc. destruct Hspec as (H1 & H2 & _).
      split; [done|]. split; [done|]. split; [|exact H2].
      unfold no_customer in Hc.
      destruct (stripe_customer_id w); [by eexists | done].
  - rewrite !lookup_insert_eq. simpl.
    destruct Hspec as (H1 & H2 & _). split; [|by eauto].
    destruct (no_customer (set_customer new_wallet (new_customer_id user)));
      [|done].
    unfold save_wallet. simpl. by rewrite !insert_insert_eq.
Qed.

(** ** Redelivered webhooks *)

(** X3. Delivering the same webhook event a second time changes nothing:
    the store after the second delivery is the store after the first, and
    the handler gives the answer it gave the first time. *)
Theorem stripe_webhook_redelivery
    (d : Delivery) (now now' : nat) (s : Store) :
  stripe_webhook d now' (stripe_webhook d now s).1
  = ((stripe_webhook d now s).1, (stripe_webhook d now s).2).
Proof.
  destruct d as [| |[[id|] charge|[id|]|]]; try reflexivity.
  - (* payment_intent.succeeded *)
    simpl.
    assert (Hskip :
      (transactions s !! id = None
       \/ exists t, transactions s !! id = Some t
            /\ (transaction_type t <> ty_deposit \/ status t <> processing)) ->
      (let (s', o) :=
         WalletService.complete_deposit id charge now'
           (let (s', o) := WalletService.complete_deposit id charge now s in
            match o with
            | Return _ => (s', 200%nat)
            | Raise _ => (s', 500%nat)
            end).1 in
       match o with
       | Return _ => (s', 200%nat)
       | Raise _ => (s', 500%nat)
       end) =
      ((let (s', o) := WalletService.complete_deposit id charge now s in
        match o with
        | Return _ => (s', 200%nat)
        | Raise _ => (s', 500%nat)
        end).1,
       (let (s', o) := WalletService.complete_deposit id charge now s in
        match o with
        | Return _ => (s', 200%nat)
        | Raise _ => (s', 500%nat)
        end).2)).
    { intros Hno.
      rewrite !(complete_deposit_guarded s id charge now Hno). simpl.
      by rewrite (complete_deposit_guarded s id charge now' Hno). }
    destruct (transactions s !! id) as [t|] eqn:Hid; [|apply Hskip; by left].
    destruct (decide (transaction_type t = ty_deposit)) as [Hty|Hty];
      [|apply Hskip; right; eauto].
    destruct (decide (status t = processing)) as [Hst|Hst];
      [|apply Hskip; right; eauto].
    clear Hskip.
    destruct (wallets s !! wallet t) as [w|] eqn:Hw.
    + rewrite (complete_deposit_processing _ _ charge now _ _ Hid Hty Hst Hw).
      simpl. rewrite complete_deposit_guarded; [done|].
      right. eexists. split.
      * simpl. apply list_lookup_insert_eq. by eapply lookup_lt_Some.
      * by right.
    + assert (E : forall n, WalletService.complete_deposit id charge n s
                  = (s, Raise "WalletTransaction has no wallet.")).
      { intros n. unfold WalletService.complete_deposit.
        rewrite (get_transaction_of_type_hit _ _ _ _ Hid Hty).
        rewrite Hst, bool_decide_eq_true_2 by done. simpl. by rewrite Hw. }
      rewrite !E. simpl. by rewrite ?E.
  - (* payment_intent.payment_failed *)
    simpl. destruct (transactions s !! id) as [t|] eqn:Hid; simpl.
    + rewrite list_lookup_insert_eq by (by eapply lookup_lt_Some).
      unfold save_transaction. simpl. by rewrite list_insert_insert_eq.
    + by rewrite Hid.
Qed.

(** ** Repeated refunds *)

(** X4. Nothing stops a row from being refunded again: [n] calls of
    [refund_transaction] on a row whose wallet exists credit [n] times its
    amount and append [n] refund rows, whatever the status of the row. *)
Theorem refund_repeatedly_credits
    (n id : nat) (reason : string) (now : nat) (s : Store)
    (t : WalletTransaction) (w : UserWallet) :
  transactions s !! id = Some t ->
  wallets s !! wallet t = Some w ->
  let s' := refund_repeatedly n id reason now s in
  available_balance <$> wallets s' !! wallet t
    = Some (available_balance w + Z.of_nat n * amount t)
  /\ length (transactions s') = (length (transactions s) + n)%nat.
Proof.
  intros Hid Hw s'. subst s'.
  enough (exists t' w',
    transactions (refund_repeatedly n id reason now s) !! id = Some t'
    /\ wallet t' = wallet t /\ amount t' = amount t
    /\ wallets (refund_repeatedly n id reason now s) !! wallet t = Some w'
    /\ available_balance w' = available_balance w + Z.of_nat n * amount t
    /\ length (transactions (refund_repeatedly n id reason now s))
       = (length (transactions s) + n)%nat)
    as (t' & w' & _ & _ & _ & Hw' & Ha & Hlen).
  { rewrite Hw'. simpl. by rewrite Ha. }
  induction n as [|n IH].
  - exists t, w. simpl. repeat split; try done; lia.
  - destruct IH as (t' & w' & Hid' & Hwt & Hamt & Hw' & Ha & Hlen).
    change (refund_repeatedly (S n) id reason now s)
      with (WalletService.refund_transaction id reason now
              (refund_repeatedly n id reason now s)).1.
    set (sn := refund_repeatedly n id reason now s) in *.
    assert (Hlt : (id < length (transactions sn))%nat)
      by (by eapply lookup_lt_Some).
    unfold WalletService.refund_transaction.
    rewrite Hid', Hwt, Hw'. simpl.
    eexists _, _. split.
    { apply list_lookup_insert_eq. rewrite length_insert, length_app. lia. }
    split; [done|]. split; [done|].
    split; [apply lookup_insert_eq|].
    split; [simpl; lia|].
    rewrite !length_insert, length_app. simpl. lia.
Qed.

(** The $50.00 deposit refunded three times leaves $47.75 + 3 * $50.00. *)
Lemma refund_repeatedly_credits_witness :
  available_balance
    <$> wallets (refund_repeatedly 3 0 "again" 30 deposit_completed) !! 1%nat
  = Some 19775
  /\ length (transactions (refund_repeatedly 3 0 "again" 30 deposit_completed))
     = 4%nat.
Proof.
  edestruct (refund_repeatedly_credits 3 0 "again" 30 deposit_completed)
    as [Ha Hlen]; [reflexivity | reflexivity |].
  split; [exact Ha | exact Hlen].
Defined.

(** ** Funds moved by the one-call operations *)

(** X5. Escrow moves conserve the wallet's total: an escrow deposit,
    accepted or refused, leaves [total_balance] as it was; so does a release
    back to the wallet; a release paid out of the wallet, when accepted,
    lowers it by exactly the amount. *)
Theorem escrow_moves_conserve_total
    (new_customer_id : nat -> string) (s : Store) (user : nat) (amt : Z)
    (trade descr : string) (to_available : bool) (now : nat) :
  let w0 := default new_wallet (wallets s !! user) in
  let dep :=
    WalletService.escrow_deposit new_customer_id user amt trade descr now s in
  let rel :=
    WalletService.release_escrow new_customer_id user amt trade to_available
      descr now s in
  total_balance <$> wallets dep.1 !! user = Some (total_balance w0)
  /\ total_balance <$> wallets rel.1 !! user
     = Some (if success rel.2 && negb to_available
             then total_balance w0 - amt else total_balance w0).
Proof.
  intros w0 dep rel. subst dep rel. split.
  - pose proof (escrow_deposit_spec new_customer_id user amt trade descr now s)
      as H.
    destruct (WalletService.escrow_deposit _ _ _ _ _ _ s) as [s' r].
    cbv zeta in H. fold w0 in H. destruct H as (_ & _ & w' & Hw' & H).
    simpl. rewrite Hw'. simpl. f_equal. unfold total_balance.
    destruct (amt <=? available_balance w0);
      [destruct H as (_ & (Ha & He & _) & _)
      |destruct H as (_ & (Ha & He & _) & _)]; simpl in *; lia.
  - pose proof (release_escrow_spec new_customer_id user amt trade to_available
                  descr now s) as H.
    destruct (WalletService.release_escrow _ _ _ _ _ _ _ s) as [s' r].
    cbv zeta in H. fold w0 in H. destruct H as (_ & _ & w' & Hw' & H).
    simpl. rewrite Hw'. simpl. f_equal. unfold total_balance.
    destruct (escrow_balance w0 <? amt).
    + destruct H as (-> & (Ha & He & _) & _). simpl. lia.
    + destruct H as (-> & (Ha & He & _) & _). simpl in *.
      destruct to_available; simpl; lia.
Qed.

(** X6. [shipping_payment] on both sides of its guard.  With
    [amount <= available_balance] it takes the amount off the available
    balance, adds it to [total_shipping_paid], leaves the escrow balance and
    the other counters alone, and appends one completed 'shipping_payment'
    row whose snapshots are the balance before and after.  Otherwise it
    returns the insufficient-balance error, appends no row and moves no
    funds. *)
Theorem shipping_payment_effect
    (new_customer_id : nat -> string) (s : Store) (user : nat) (amt : Z)
    (trade descr : string) (now : nat) :
  let w0 := default new_wallet (wallets s !! user) in
  let '(s', r) :=
    WalletService.shipping_payment new_customer_id user amt trade descr now s in
  exists w',
    wallets s' !! user = Some w'
    /\ escrow_balance w' = escrow_balance w0
    /\ total_deposited w' = total_deposited w0
    /\ total_withdrawn w' = total_withdrawn w0
    /\ if amt <=? available_balance w0 then
         r = ShippingPaid (length (transactions s)) (available_balance w0 - amt)
         /\ available_balance w' = available_balance w0 - amt
         /\ total_shipping_paid w' = total_shipping_paid w0 + amt
         /\ exists t,
              transactions s' = transactions s ++ [t]
              /\ wallet t = user
              /\ transaction_type t = ty_shipping_payment
              /\ amount t = amt
              /\ status t = completed
              /\ balance_before t = Some (available_balance w0)
              /\ balance_after t = Some (available_balance w0 - amt)
       else
         r = Failure "Insufficient available balance for shipping payment"
         /\ available_balance w' = available_balance w0
         /\ total_shipping_paid w' = total_shipping_paid w0
         /\ transactions s' = transactions s.
Proof.
  intros w0. unfold WalletService.shipping_payment.
  pose proof (get_or_create_wallet_spec new_customer_id user s) as H.
  destruct (WalletService.get_or_create_wallet new_customer_id user s)
    as [s1 w1].
  destruct H as (Hw1 & Hsf & Htx & Hb & Hothers & _). fold w0 in Hsf.
  destruct Hsf as (Ha & He & Hd & Hwd & Hsh & Hl1 & Hl2).
  unfold can_withdraw. rewrite Ha.
  destruct (amt <=? available_balance w0); simpl.
  - eexists. split; [by rewrite lookup_insert_eq|]. simpl.
    rewrite Htx, insert_last, ?Ha, ?Hsh.
    do 3 (split; [done|]). do 3 (split; [done|]).
    eexists. split; [reflexivity|]. by repeat split.
  - exists w1. by rewrite Htx.
Qed.

(** X7. Every call that creates and completes its row at once (escrow
    deposit, escrow release, shipping payment, refund) leaves that row
    bracketed when it succeeds: the row sits at the end of the log as it was
    before the call, it is 'completed', and [balance_after - balance_before]
    is the signed effect of its type and amount. *)
Theorem one_call_rows_bracketed
    (new_customer_id : nat -> string) (s s' : Store) (o : Op) :
  match o with
  | op_escrow_deposit _ _ _ _ _ | op_release_escrow _ _ _ _ _ _
  | op_shipping_payment _ _ _ _ _ | op_refund_transaction _ _ _ => True
  | _ => False
  end ->
  step new_customer_id s o = s' ->
  (length (transactions s) < length (transactions s'))%nat ->
  exists t,
    transactions s' !! length (transactions s) = Some t
    /\ status t = completed
    /\ bracketed t.
Proof.
  assert (Hlast : forall (l : list WalletTransaction) t,
            (l ++ [t]) !! length l = Some t).
  { intros l t. by rewrite lookup_app_r, Nat.sub_diag by lia. }
  intros Ho <- Hgrow. destruct o; try done; simpl in *.
  - destruct (WalletService.escrow_deposit _ _ _ _ _ _ s) as [s' r] eqn:E.
    destruct (success r) eqn:Hr.
    + destruct (escrow_deposit_bracketed _ _ _ _ _ _ _ _ _ E Hr)
        as (t & Htx & Hst & Hb).
      exists t. simpl. by rewrite Htx, Hlast.
    + pose proof (escrow_deposit_spec new_customer_id user amt trade descr
                    now s) as H.
      rewrite E in H. cbv zeta in H. destruct H as (_ & _ & w' & _ & H).
      destruct (amt <=? _); [by destruct H as (-> & _)|].
      destruct H as (_ & _ & Htx). simpl in Hgrow. rewrite Htx in Hgrow. lia.
  - destruct (WalletService.release_escrow _ _ _ _ _ _ _ s) as [s' r] eqn:E.
    destruct (success r) eqn:Hr.
    + destruct (release_escrow_bracketed _ _ _ _ _ _ _ _ _ _ E Hr)
        as (t & Htx & Hst & Hb).
      exists t. simpl. by rewrite Htx, Hlast.
    + pose proof (release_escrow_spec new_customer_id user amt trade
                    to_available descr now s) as H.
      rewrite E in H. cbv zeta in H. destruct H as (_ & _ & w' & _ & H).
      destruct (_ <? amt); [|by destruct H as (-> & _)].
      destruct H as (_ & _ & Htx). simpl in Hgrow. rewrite Htx in Hgrow. lia.
  - destruct (WalletService.shipping_payment _ _ _ _ _ _ s) as [s' r] eqn:E.
    destruct (success r) eqn:Hr.
    + destruct (shipping_payment_bracketed _ _ _ _ _ _ _ _ _ E Hr)
        as (t & Htx & Hst & Hb).
      exists t. simpl. by rewrite Htx, Hlast.
    + revert E. unfold WalletService.shipping_payment.
      pose proof (get_or_create_wallet_spec new_customer_id user s) as H.
      destruct (WalletService.get_or_create_wallet new_customer_id user s)
        as [s1 w1].
      destruct H as (_ & _ & Htx & _).
      destruct (negb (can_withdraw w1 amt)); simpl; intros [= <- <-].
      * simpl in Hgrow. rewrite Htx in Hgrow. lia.
      * done.
  - destruct (WalletService.refund_transaction id reason now s)
      as [s' r] eqn:E.
    destruct (success r) eqn:Hr.
    + destruct (refund_transaction_bracketed _ _ _ _ _ _ E Hr)
        as (t & Hid & _ & Hst & Hb).
      by exists t.
    + revert E. unfold WalletService.refund_transaction.
      destruct (transactions s !! id) as [original|];
        [|intros [= <- <-]; simpl in Hgrow; lia].
      destruct (wallets s !! wallet original) as [w|];
        [|intros [= <- <-]; simpl in Hgrow; lia].
      simpl. by intros [= <- <-].
Qed.

(** The shipping payment of the failing run of C1 is bracketed. *)
Lemma one_call_rows_bracketed_witness :
  exists t,
    transactions (run customer_of (take 4 overdraft_run) (fresh [first_bank]))
      !! 2%nat = Some t
    /\ status t = completed
    /\ bracketed t.
Proof.
  apply (one_call_rows_bracketed customer_of
           (run customer_of (take 3 overdraft_run) (fresh [first_bank]))
           (run customer_of (take 4 overdraft_run) (fresh [first_bank]))
           (op_shipping_payment 1 5000 "trade-9" "" 11)).
  - exact I.
  - reflexivity.
  - vm_compute. lia.
Defined.

(** ** The fee estimate *)

Section FeeEstimate.

Lemma platform_fee_estimate amt :
  to_cents (dec_mul (dec_of_cents amt) {| coefficient := 1; places := 2 |})
  = Z.sgn amt * ((2 * Z.abs amt + 100) / 200).
Proof.
  unfold to_cents, dec_mul, dec_of_cents. simpl.
  change (10 ^ Z.of_nat 2) with 100. by rewrite Z.mul_1_r.
Qed.

Lemma stripe_fee_estimate amt :
  to_cents (dec_add
              (dec_mul (dec_of_cents amt) {| coefficient := 29; places := 3 |})
              {| coefficient := 30; places := 2 |})
  = Z.sgn (29 * amt + 30000) * ((2 * Z.abs (29 * amt + 30000) + 1000) / 2000).
Proof.
  unfold to_cents, dec_add, dec_mul, dec_of_cents, rescale. simpl.
  change (10 ^ Z.of_nat 0) with 1. change (10 ^ Z.of_nat 3) with 1000.
  replace (amt * 29 * 1 + 30 * 1000) with (29 * amt + 30000) by lia.
  reflexivity.
Qed.

(** Rounding to the nearest multiple, ties away from zero, is off by at most
    half a unit. *)
Lemma round_to_100 c :
  -50 <= 100 * (Z.sgn c * ((2 * Z.abs c + 100) / 200)) - c <= 50.
Proof.
  destruct (Z.lt_trichotomy c 0) as [Hc | [-> | Hc]]; [| done |].
  - rewrite Z.sgn_neg, Z.abs_neq by lia.
    pose proof (Z.div_mod (2 * - c + 100) 200 ltac:(lia)).
    pose proof (Z.mod_pos_bound (2 * - c + 100) 200 ltac:(lia)). lia.
  - rewrite Z.sgn_pos, Z.abs_eq by lia.
    pose proof (Z.div_mod (2 * c + 100) 200 ltac:(lia)).
    pose proof (Z.mod_pos_bound (2 * c + 100) 200 ltac:(lia)). lia.
Qed.

Lemma round_to_1000 c :
  -500 <= 1000 * (Z.sgn c * ((2 * Z.abs c + 1000) / 2000)) - c <= 500.
Proof.
  destruct (Z.lt_trichotomy c 0) as [Hc | [-> | Hc]]; [| done |].
  - rewrite Z.sgn_neg, Z.abs_neq by lia.
    pose proof (Z.div_mod (2 * - c + 1000) 2000 ltac:(lia)).
    pose proof (Z.mod_pos_bound (2 * - c + 1000) 2000 ltac:(lia)). lia.
  - rewrite Z.sgn_pos, Z.abs_eq by lia.
    pose proof (Z.div_mod (2 * c + 1000) 2000 ltac:(lia)).
    pose proof (Z.mod_pos_bound (2 * c + 1000) 2000 ltac:(lia)). lia.
Qed.

(** The net amount of a row with the estimated fees. *)
Lemma estimated_net_amount t :
  platform_fee t =
    to_cents (dec_mul (dec_of_cents (amount t))
                {| coefficient := 1; places := 2 |}) ->
  stripe_fee t =
    to_cents (dec_add
                (dec_mul (dec_of_cents (amount t))
                   {| coefficient := 29; places := 3 |})
                {| coefficient := 30; places := 2 |}) ->
  (-50 <= 100 * platform_fee t - amount t <= 50)
  /\ (-500 <= 1000 * stripe_fee t - (29 * amount t + 30000) <= 500)
  /\ (961 * amount t - 31000 <= 1000 * net_amount t <= 961 * amount t - 29000)
  /\ (net_amount t < 0 <-> amount t <= 30).
Proof.
  intros Hp Hs. rewrite platform_fee_estimate in Hp.
  rewrite stripe_fee_estimate in Hs.
  pose proof (round_to_100 (amount t)) as B1.
  pose proof (round_to_1000 (29 * amount t + 30000)) as B2.
  rewrite <- Hp in B1. rewrite <- Hs in B2.
  split; [exact B1|]. split; [exact B2|].
  assert (B3 : 961 * amount t - 31000 <= 1000 * net_amount t
               <= 961 * amount t - 29000) by (unfold net_amount; lia).
  split; [exact B3|].
  destruct (decide (amount t = 31)) as [E|].
  { unfold net_amount. rewrite Hp, Hs, E. vm_compute. split; intros H; done. }
  destruct (decide (amount t = 32)) as [E|].
  { unfold net_amount. rewrite Hp, Hs, E. vm_compute. split; intros H; done. }
  lia.
Qed.

End FeeEstimate.

(** X8. The fees [create_deposit_intent] stores are the estimates 1% and
    2.9% + $0.30 rounded to the cent: each is within half a cent of the exact
    figure, so the net amount of the row is within a cent of
    96.1% of the amount minus $0.30.  The net amount is negative exactly
    for amounts of $0.30 or less, and at least $0.66 for every amount the
    deposit endpoint accepts ($1.00 and more). *)
Theorem deposit_fee_estimate
    (new_customer_id : nat -> string) (s : Store) (user : nat) (amt : Z)
    (pm descr : string) (reply : GatewayReply) :
  exists t,
    transactions
      (WalletService.create_deposit_intent new_customer_id user amt pm descr
         reply s).1 !! length (transactions s) = Some t
    /\ amount t = amt
    /\ (-50 <= 100 * platform_fee t - amt <= 50)
    /\ (-500 <= 1000 * stripe_fee t - (29 * amt + 30000) <= 500)
    /\ (961 * amt - 31000 <= 1000 * net_amount t <= 961 * amt - 29000)
    /\ (net_amount t < 0 <-> amt <= 30)
    /\ (100 <= amt -> 66 <= net_amount t).
Proof.
  pose proof (create_deposit_intent_spec new_customer_id user amt pm descr
                reply s) as H.
  destruct (WalletService.create_deposit_intent _ _ _ _ _ _ s) as [s' r].
  cbv zeta in H.
  destruct H as (_ & _ & _ & _ & t & Htx & _ & _ & Hamt & _ & Hp & Hs & _).
  exists t. simpl. rewrite Htx.
  split; [by rewrite lookup_app_r, Nat.sub_diag by lia|].
  split; [exact Hamt|].
  rewrite <- Hamt in Hp, Hs.
  destruct (estimated_net_amount t Hp Hs) as (B1 & B2 & B3 & B4).
  rewrite Hamt in *. repeat split; try lia; try apply B4.
Qed.

(** ** The wallet summary *)


(** ** The books *)

Section Books.

Variable new_customer_id : nat -> string.

Implicit Types (s : Store) (t : WalletTransaction) (w : UserWallet)
  (l : list WalletTransaction).

Lemma tally_snoc f u l t :
  tally f u (l ++ [t]) = tally f u l + (if decide (wallet t = u) then f t else 0).
Proof.
  unfold tally. induction l as [|x l IH]; simpl; [lia|]. rewrite IH. lia.
Qed.

Lemma tally_insert f u l id t t' :
  l !! id = Some t ->
  tally f u (<[id := t']> l)
  = tally f u l - (if decide (wallet t = u) then f t else 0)
    + (if decide (wallet t' = u) then f t' else 0).
Proof.
  unfold tally. revert id. induction l as [|x l IH]; intros [|id] H;
    simpl in *; try done.
  - injection H as ->. lia.
  - rewrite (IH _ H). lia.
Qed.

(** A row is rewritten without a change to what it counts for. *)
Lemma tally_insert_same f u l id t t' :
  l !! id = Some t -> wallet t' = wallet t -> f t' = f t ->
  tally f u (<[id := t']> l) = tally f u l.
Proof.
  intros H Hw Hf. rewrite (tally_insert _ _ _ _ _ _ H), Hw, Hf.
  destruct (decide _); lia.
Qed.

Lemma audited_fresh banks : audited (fresh banks).
Proof. split; [constructor | by intros u]. Qed.

(** A row is appended for user [u] and the wallet of [u] moves by what the
    row counts for. *)
Lemma audited_commit s u w w' t :
  audited s ->
  wallets s !! u = Some w ->
  wallet t = u ->
  row_ok t ->
  available_balance w' = available_balance w + effect_on_available t ->
  escrow_balance w' = escrow_balance w + effect_on_escrow t ->
  total_deposited w' = total_deposited w + counted_deposit t ->
  total_withdrawn w' = total_withdrawn w + counted_withdrawal t ->
  total_shipping_paid w' = total_shipping_paid w + counted_shipping t ->
  audited {| wallets := <[u := w']> (wallets s);
             transactions := transactions s ++ [t];
             bank_accounts := bank_accounts s |}.
Proof.
  intros [Hrows Hrec] Hw Hu Hok Ha He Hd Hwd Hsh. split; simpl.
  - apply Forall_app. split; [done|]. by constructor.
  - intros u0. specialize (Hrec u0). unfold reconciled in *.
    rewrite !tally_snoc, Hu.
    destruct (decide (u = u0)) as [<-|Hne].
    + rewrite lookup_insert_eq. rewrite Hw in Hrec. simpl in *. lia.
    + rewrite lookup_insert_ne by done. lia.
Qed.

(** Row [id] is rewritten and the wallet it belongs to moves by the
    difference in what the row counts for. *)
Lemma audited_update s id t t' w w' :
  audited s ->
  transactions s !! id = Some t ->
  wallets s !! wallet t = Some w ->
  wallet t' = wallet t ->
  row_ok t' ->
  available_balance w' = available_balance w
                         + effect_on_available t' - effect_on_available t ->
  escrow_balance w' = escrow_balance w
                      + effect_on_escrow t' - effect_on_escrow t ->
  total_deposited w' = total_deposited w
                       + counted_deposit t' - counted_deposit t ->
  total_withdrawn w' = total_withdrawn w
                       + counted_withdrawal t' - counted_withdrawal t ->
  total_shipping_paid w' = total_shipping_paid w
                           + counted_shipping t' - counted_shipping t ->
  audited {| wallets := <[wallet t := w']> (wallets s);
             transactions := <[id := t']> (transactions s);
             bank_accounts := bank_accounts s |}.
Proof.
  intros [Hrows Hrec] Hid Hw Hu Hok Ha He Hd Hwd Hsh. split; simpl.
  - by apply Forall_insert.
  - intros u0. specialize (Hrec u0). unfold reconciled in *.
    rewrite !(tally_insert _ _ _ _ _ _ Hid), Hu.
    destruct (decide (wallet t = u0)) as [<-|Hne].
    + rewrite lookup_insert_eq. rewrite Hw in Hrec. simpl in *. lia.
    + rewrite lookup_insert_ne by done. lia.
Qed.

(** Row [id] is rewritten without a change to what it counts for. *)
Lemma audited_restatus s id t t' :
  audited s ->
  transactions s !! id = Some t ->
  wallet t' = wallet t ->
  row_ok t' ->
  effect_on_available t' = effect_on_available t ->
  effect_on_escrow t' = effect_on_escrow t ->
  counted_deposit t' = counted_deposit t ->
  counted_withdrawal t' = counted_withdrawal t ->
  counted_shipping t' = counted_shipping t ->
  audited (save_transaction id t' s).
Proof.
  intros [Hrows Hrec] Hid Hu Hok Ha He Hd Hwd Hsh. split; simpl.
  - by apply Forall_insert.
  - intros u0. specialize (Hrec u0). unfold reconciled in *.
    by rewrite !(tally_insert_same _ _ _ _ _ _ Hid).
Qed.

Lemma audited_get_or_create_wallet s user :
  audited s ->
  let '(s1, w1) := WalletService.get_or_create_wallet new_customer_id user s in
  audited s1 /\ wallets s1 !! user = Some w1.
Proof.
  intros [Hrows Hrec].
  pose proof (get_or_create_wallet_spec new_customer_id user s) as H.
  destruct (WalletService.get_or_create_wallet new_customer_id user s)
    as [s1 w1].
  destruct H as (Hw1 & Hsf & Htx & _ & Hothers & _).
  split; [|done]. split; [by rewrite Htx|].
  intros u0. rewrite Htx. specialize (Hrec u0).
  destruct (decide (u0 = user)) as [->|Hne].
  - rewrite Hw1. simpl. unfold reconciled, same_funds in *. lia.
  - by rewrite Hothers.
Qed.

(** A row that counts for nothing is appended. *)
Lemma audited_append s t :
  audited s ->
  row_ok t ->
  effect_on_available t = 0 ->
  effect_on_escrow t = 0 ->
  counted_deposit t = 0 ->
  counted_withdrawal t = 0 ->
  counted_shipping t = 0 ->
  audited {| wallets := wallets s;
             transactions := transactions s ++ [t];
             bank_accounts := bank_accounts s |}.
Proof.
  intros [Hrows Hrec] Hok Ha He Hd Hwd Hsh. split; simpl.
  - apply Forall_app. split; [done|]. by constructor.
  - intros u0. specialize (Hrec u0). unfold reconciled in *.
    rewrite !tally_snoc, Ha, He, Hd, Hwd, Hsh.
    destruct (decide _); lia.
Qed.

Ltac effects :=
  unfold effect_on_available, effect_on_escrow, counted_deposit,
    counted_withdrawal, counted_shipping, net_amount;
  simpl;
  repeat match goal with
         | H : transaction_type _ = _ |- _ => rewrite H
         | H : completed_at _ = _ |- _ => rewrite H
         end;
  simpl; try lia; try done.

Ltac shape := unfold row_ok; simpl; repeat split; eauto; try done.

(** A processing deposit or withdrawal is completed. *)
Lemma audited_complete s id t t' w w' :
  audited s ->
  transactions s !! id = Some t ->
  status t = processing ->
  wallets s !! wallet t = Some w ->
  wallet t' = wallet t -> transaction_type t' = transaction_type t ->
  amount t' = amount t -> platform_fee t' = platform_fee t ->
  stripe_fee t' = stripe_fee t ->
  status t' = completed ->
  is_Some (completed_at t') -> is_Some (balance_after t') ->
  (transaction_type t = ty_deposit
   /\ w' = set_total_deposited
             (set_available w (available_balance w + net_amount t))
             (total_deposited w + amount t)
   \/ transaction_type t = ty_withdrawal
      /\ w' = set_total_withdrawn
                (set_available w (available_balance w - amount t))
                (total_withdrawn w + amount t)) ->
  audited {| wallets := <[wallet t := w']> (wallets s);
             transactions := <[id := t']> (transactions s);
             bank_accounts := bank_accounts s |}.
Proof.
  intros Hs Hid Hst Hw Hu Hty' Hamt Hpf Hsf Hst' [c Hc] Hafter Hcase.
  assert (Hok : row_ok t).
  { destruct Hs as [Hrows _]. by eapply Forall_lookup_1 in Hrows. }
  destruct Hok as (Hfee & Hshape & _). rewrite Hst in Hshape.
  destruct Hshape as (_ & Hstamp & _).
  eapply audited_update; try done.
  - unfold row_ok. rewrite Hty', Hst'. split; [done|]. split; [by eauto|].
    by destruct Hcase as [[-> _] | [-> _]].
  - destruct Hcase as [[Hty ->] | [Hty ->]];
      unfold effect_on_available, net_amount;
      rewrite Hty', Hamt, ?Hpf, ?Hsf, Hty, Hc, Hstamp; simpl; lia.
  - destruct Hcase as [[Hty ->] | [Hty ->]];
      unfold effect_on_escrow; rewrite Hty', Hty; simpl; lia.
  - destruct Hcase as [[Hty ->] | [Hty ->]];
      unfold counted_deposit; rewrite Hty', Hamt, Hty, ?Hc, ?Hstamp; simpl; lia.
  - destruct Hcase as [[Hty ->] | [Hty ->]];
      unfold counted_withdrawal; rewrite Hty', Hamt, Hty, ?Hc, ?Hstamp;
      simpl; lia.
  - destruct Hcase as [[Hty ->] | [Hty ->]];
      unfold counted_shipping; rewrite Hty', Hty; simpl; lia.
Qed.

(** The status of a row is overwritten. *)
Lemma audited_set_status s id t st :
  audited s ->
  transactions s !! id = Some t ->
  st = failed \/ st = refunded ->
  audited (save_transaction id (set_status t st) s).
Proof.
  intros Hs Hid Hst.
  assert (Hok : row_ok t).
  { destruct Hs as [Hrows _]. by eapply Forall_lookup_1 in Hrows. }
  destruct Hok as (Hfee & _ & Hstamped).
  eapply audited_restatus; try done.
  unfold row_ok. simpl. split; [done|].
  split; [by destruct Hst as [-> | ->]|]. done.
Qed.

Lemma audited_complete_deposit s id charge now :
  audited s -> audited (WalletService.complete_deposit id charge now s).1.
Proof.
  intros Hs. unfold WalletService.complete_deposit, get_transaction_of_type.
  destruct (transactions s !! id) as [t|] eqn:Hid; [|done].
  destruct (decide _) as [Hty|]; [|done].
  destruct (bool_decide _) eqn:Hst; [|done].
  apply bool_decide_eq_true_1 in Hst. simpl.
  destruct (wallets s !! wallet t) as [w|] eqn:Hw; [|done].
  unfold save_transaction, save_wallet. simpl.
  eapply audited_complete; try done; simpl; eauto.
Qed.

Lemma audited_step s o :
  audited s -> audited (step new_customer_id s o).
Proof.
  intros Hs. destruct o; simpl.
  - (* create_deposit_intent *)
    unfold WalletService.create_deposit_intent.
    pose proof (audited_get_or_create_wallet s user Hs) as H.
    destruct (WalletService.get_or_create_wallet _ user s) as [s1 w1].
    destruct H as [Hs1 Hw1].
    unfold create_transaction, save_transaction.
    destruct reply; simpl; rewrite insert_last;
      apply audited_append; try done; shape.
  - by apply audited_complete_deposit.
  - (* escrow_deposit *)
    unfold WalletService.escrow_deposit.
    pose proof (audited_get_or_create_wallet s user Hs) as H.
    destruct (WalletService.get_or_create_wallet _ user s) as [s1 w1].
    destruct H as [Hs1 Hw1]. unfold move_to_escrow.
    destruct (negb (can_place_in_escrow w1 amt)); simpl; [done|].
    unfold save_transaction, save_wallet. simpl. rewrite insert_last.
    eapply audited_commit; try done; try (by shape); effects.
  - (* release_escrow *)
    unfold WalletService.release_escrow.
    pose proof (audited_get_or_create_wallet s user Hs) as H.
    destruct (WalletService.get_or_create_wallet _ user s) as [s1 w1].
    destruct H as [Hs1 Hw1]. unfold release_from_escrow.
    destruct (escrow_balance w1 <? amt); simpl; [done|].
    unfold save_transaction, save_wallet. simpl. rewrite insert_last.
    eapply audited_commit; try done;
      destruct to_available; try (by shape); effects.
  - (* shipping_payment *)
    unfold WalletService.shipping_payment.
    pose proof (audited_get_or_create_wallet s user Hs) as H.
    destruct (WalletService.get_or_create_wallet _ user s) as [s1 w1].
    destruct H as [Hs1 Hw1].
    destruct (negb (can_withdraw w1 amt)); simpl; [done|].
    unfold save_transaction, save_wallet. simpl. rewrite insert_last.
    eapply audited_commit; try done; try (by shape); effects.
  - (* create_withdrawal *)
    unfold WalletService.create_withdrawal.
    pose proof (audited_get_or_create_wallet s user Hs) as H.
    destruct (WalletService.get_or_create_wallet _ user s) as [s1 w1].
    destruct H as [Hs1 Hw1].
    destruct (negb (can_withdraw w1 amt)); simpl; [done|].
    destruct bank as [b|];
      [destruct (get_bank_account s1 b user)
      |destruct (default_bank_account s1 user)]; simpl; try done.
    all: unfold save_transaction; simpl; rewrite insert_last.
    all: apply audited_append; try done; shape.
  - (* complete_withdrawal *)
    unfold WalletService.complete_withdrawal, get_transaction_of_type.
    destruct (transactions s !! id) as [t|] eqn:Hid; [|done].
    destruct (decide _) as [Hty|]; [|done].
    destruct (bool_decide _) eqn:Hst; [|done].
    apply bool_decide_eq_true_1 in Hst. simpl.
    destruct (wallets s !! wallet t) as [w|] eqn:Hw; [|done].
    unfold save_transaction, save_wallet. simpl.
    eapply audited_complete; try done; simpl; eauto.
  - (* refund_transaction *)
    unfold WalletService.refund_transaction.
    destruct (transactions s !! id) as [t|] eqn:Hid; [|done].
    destruct (wallets s !! wallet t) as [w|] eqn:Hw; [|done]. simpl.
    apply audited_set_status; [| |by right].
    + unfold save_transaction, save_wallet. simpl. rewrite insert_last.
      eapply audited_commit; try done; try (by shape); effects.
    + simpl. rewrite insert_last. by apply lookup_app_l_Some.
  - (* stripe_webhook *)
    destruct d as [| |[[id|] charge|[id|]|]]; simpl; try done.
    + pose proof (audited_complete_deposit s id charge now Hs) as H.
      by destruct (WalletService.complete_deposit id charge now s) as [s' []].
    + destruct (transactions s !! id) as [t|] eqn:Hid; [|done]. simpl.
      apply audited_set_status; [done | done | by left].
Qed.

Lemma audited_run ops s :
  audited s -> audited (run new_customer_id ops s).
Proof.
  revert s. induction ops as [|o ops IH]; intros s Hs; [done|].
  simpl. apply IH. by apply audited_step.
Qed.

End Books.



(** X11. The rows a run can leave behind.  After any sequence of calls on a
    new database no row is 'pending' or 'cancelled' and none is a
    'trade_fee'; a row in 'processing' is a deposit or a withdrawal and
    carries neither a closing snapshot nor a completion time; a 'completed'
    row carries both. *)
Theorem stored_rows_shape
    (new_customer_id : nat -> string) (ops : list Op)
    (banks : list BankAccount) (id : nat) (t : WalletTransaction) :
  transactions (run new_customer_id ops (fresh banks)) !! id = Some t ->
  status t <> pending
  /\ status t <> cancelled
  /\ transaction_type t <> ty_trade_fee
  /\ (status t = processing ->
      (transaction_type t = ty_deposit \/ transaction_type t = ty_withdrawal)
      /\ completed_at t = None /\ balance_after t = None)
  /\ (status t = completed ->
      is_Some (completed_at t) /\ is_Some (balance_after t)).
Proof.
  intros Hid.
  destruct (audited_run new_customer_id ops (fresh banks)
              (audited_fresh banks)) as [Hrows _].
  eapply Forall_lookup_1 in Hrows; [|exact Hid].
  destruct Hrows as (Hfee & Hshape & _).
  destruct (status t); try done; repeat split; try done.
Qed.

(** The withdrawal intent of the sample store is an unstamped withdrawal. *)
Lemma stored_rows_shape_witness :
  exists t,
    transactions withdrawal_requested !! 1%nat = Some t
    /\ status t = processing
    /\ transaction_type t = ty_withdrawal
    /\ completed_at t = None.
Proof.
  eexists. split; [reflexivity|]. split; [reflexivity|].
  split; [reflexivity|].
  edestruct (stored_rows_shape customer_of
               [ op_create_deposit_intent 1 5000 "pm_card" ""
                   (IntentCreated "pi_1");
                 op_complete_deposit 0 None 10;
                 op_create_withdrawal 1 4000 None "" ]
               [first_bank] 1)
    as (_ & _ & _ & Hproc & _); [reflexivity|].
  exact (proj1 (proj2 (Hproc eq_refl))).
Defined.

(** ** The life of a row *)

Section RowEvolution.

Variable new_customer_id : nat -> string.

Implicit Types (s : Store) (t : WalletTransaction) (l : list WalletTransaction).

Lemma evolves_refl t : evolves t t.
Proof. split; [by repeat split|]. split; [by left | done]. Qed.

Lemma evolves_trans t1 t2 t3 : evolves t1 t2 -> evolves t2 t3 -> evolves t1 t3.
Proof.
  intros (Hc1 & Hs1 & Hk1) (Hc2 & Hs2 & Hk2).
  destruct Hc1 as (? & Hty & ? & ? & ? & ? & ? & ? & ?).
  destruct Hc2 as (? & ? & ? & ? & ? & ? & ? & ? & ?).
  split; [repeat split; congruence|]. split.
  - destruct Hs1 as [E1 | [E1 | [E1 | (E1 & E1' & E1'')]]];
      destruct Hs2 as [E2 | [E2 | [E2 | (E2 & E2' & E2'')]]];
      try (left; congruence);
      try (right; left; congruence);
      try (right; right; left; congruence);
      try congruence.
    + right; right; right. split; [congruence|]. split; [done|].
      destruct E2''; [left | right]; congruence.
    + right; right; right. split; [done|]. split; [congruence|]. done.
  - intros Hne.
    assert (Hne2 : status t2 <> processing).
    { destruct Hs1 as [E' | [E' | [E' | (? & ? & ?)]]]; congruence. }
    destruct (Hk1 Hne) as (? & ? & ?). destruct (Hk2 Hne2) as (? & ? & ?).
    repeat split; congruence.
Qed.

Lemma kept_insert l j t0 t0' id t :
  l !! j = Some t0 -> evolves t0 t0' -> l !! id = Some t ->
  exists t', <[j := t0']> l !! id = Some t' /\ evolves t t'.
Proof.
  intros Hj Hev Hid. destruct (decide (j = id)) as [->|Hne].
  - rewrite Hj in Hid. injection Hid as <-. exists t0'.
    split; [|done]. apply list_lookup_insert_eq. by eapply lookup_lt_Some.
  - exists t. rewrite list_lookup_insert_ne by done. split; [done|].
    apply evolves_refl.
Qed.

Lemma kept_append l x id t :
  l !! id = Some t -> exists t', (l ++ [x]) !! id = Some t' /\ evolves t t'.
Proof.
  intros Hid. exists t. split; [by apply lookup_app_l_Some|].
  apply evolves_refl.
Qed.

Lemma evolves_set_status t st :
  st = failed \/ st = refunded -> evolves t (set_status t st).
Proof.
  intros Hst. split; [by repeat split|]. split; [|done].
  simpl. destruct Hst as [-> | ->]; auto.
Qed.

Lemma evolves_complete_deposit s id charge now id0 t :
  transactions s !! id0 = Some t ->
  exists t',
    transactions (WalletService.complete_deposit id charge now s).1 !! id0
      = Some t'
    /\ evolves t t'.
Proof.
  intros Hid0. unfold WalletService.complete_deposit, get_transaction_of_type.
  destruct (transactions s !! id) as [t0|] eqn:Hid;
    [|exists t; split; [done | apply evolves_refl]].
  destruct (decide _) as [Hty|];
    [|exists t; split; [done | apply evolves_refl]].
  destruct (bool_decide _) eqn:Hst;
    [|exists t; split; [done | apply evolves_refl]].
  apply bool_decide_eq_true_1 in Hst. simpl.
  destruct (wallets s !! wallet t0) as [w|];
    [|exists t; split; [done | apply evolves_refl]].
  simpl. eapply kept_insert; [done| |done].
  split; [by repeat split|]. split; [|done]. simpl. auto 10.
Qed.

Lemma evolves_step s o id t :
  transactions s !! id = Some t ->
  exists t',
    transactions (step new_customer_id s o) !! id = Some t' /\ evolves t t'.
Proof.
  intros Hid.
  assert (Hgoc : forall user,
    transactions (WalletService.get_or_create_wallet new_customer_id user s).1
    = transactions s).
  { intros user.
    pose proof (get_or_create_wallet_spec new_customer_id user s) as H.
    destruct (WalletService.get_or_create_wallet new_customer_id user s).
    apply H. }
  assert (Hsame : exists t', transactions s !! id = Some t' /\ evolves t t')
    by (exists t; split; [done | apply evolves_refl]).
  destruct o; simpl.
  - unfold WalletService.create_deposit_intent. specialize (Hgoc user).
    destruct (WalletService.get_or_create_wallet _ user s) as [s1 w1].
    simpl in Hgoc.
    destruct reply; simpl; rewrite insert_last, Hgoc; by apply kept_append.
  - by apply evolves_complete_deposit.
  - unfold WalletService.escrow_deposit. specialize (Hgoc user).
    destruct (WalletService.get_or_create_wallet _ user s) as [s1 w1].
    simpl in Hgoc. unfold move_to_escrow.
    destruct (negb (can_place_in_escrow w1 amt)); simpl;
      [by rewrite Hgoc|].
    rewrite insert_last, Hgoc. by apply kept_append.
  - unfold WalletService.release_escrow. specialize (Hgoc user).
    destruct (WalletService.get_or_create_wallet _ user s) as [s1 w1].
    simpl in Hgoc. unfold release_from_escrow.
    destruct (escrow_balance w1 <? amt); simpl; [by rewrite Hgoc|].
    rewrite insert_last, Hgoc. by apply kept_append.
  - unfold WalletService.shipping_payment. specialize (Hgoc user).
    destruct (WalletService.get_or_create_wallet _ user s) as [s1 w1].
    simpl in Hgoc.
    destruct (negb (can_withdraw w1 amt)); simpl; [by rewrite Hgoc|].
    rewrite insert_last, Hgoc. by apply kept_append.
  - unfold WalletService.create_withdrawal. specialize (Hgoc user).
    destruct (WalletService.get_or_create_wallet _ user s) as [s1 w1].
    simpl in Hgoc.
    destruct (negb (can_withdraw w1 amt)); simpl; [by rewrite Hgoc|].
    destruct bank as [b|];
      [destruct (get_bank_account s1 b user)
      |destruct (default_bank_account s1 user)]; simpl;
      rewrite ?insert_last, Hgoc; try done; by apply kept_append.
  - unfold WalletService.complete_withdrawal, get_transaction_of_type.
    destruct (transactions s !! id0) as [t0|] eqn:Hid0; [|done].
    destruct (decide _) as [Hty|]; [|done].
    destruct (bool_decide _) eqn:Hst; [|done].
    apply bool_decide_eq_true_1 in Hst. simpl.
    destruct (wallets s !! wallet t0) as [w|]; [|done].
    simpl. eapply kept_insert; [done| |done].
    split; [by repeat split|]. split; [|done]. simpl. auto 10.
  - unfold WalletService.refund_transaction.
    destruct (transactions s !! id0) as [t0|] eqn:Hid0; [|done].
    destruct (wallets s !! wallet t0) as [w|]; [|done].
    simpl. rewrite insert_last.
    eapply kept_insert.
    + by apply lookup_app_l_Some.
    + apply evolves_set_status. by right.
    + by apply lookup_app_l_Some.
  - destruct d as [| |[[id0|] charge|[id0|]|]]; simpl; try done.
    + pose proof (evolves_complete_deposit s id0 charge now id t Hid) as H.
      by destruct (WalletService.complete_deposit id0 charge now s) as [s' []].
    + destruct (transactions s !! id0) as [t0|] eqn:Hid0; [|done]. simpl.
      eapply kept_insert; [done| |done].
      apply evolves_set_status. by left.
Qed.

End RowEvolution.

(** X12. The life of a row.  Whatever calls follow, a stored row stays
    in the log under its id and keeps the columns it was created with
    (wallet, type, amount, description, intent id, trade id, fees, opening
    snapshot).  Its status stays, or becomes 'failed' or 'refunded', or goes
    from 'processing' to 'completed'; and a row that is not in 'processing'
    keeps its charge id, closing snapshot and completion time. *)
Theorem row_evolution
    (new_customer_id : nat -> string) (ops : list Op) (s : Store) (id : nat)
    (t : WalletTransaction) :
  transactions s !! id = Some t ->
  exists t',
    transactions (run new_customer_id ops s) !! id = Some t' /\ evolves t t'.
Proof.
  revert s t. induction ops as [|o ops IH]; intros s t Hid.
  - exists t. split; [done | apply evolves_refl].
  - destruct (evolves_step new_customer_id s o id t Hid) as (t1 & Hid1 & Hev1).
    destruct (IH _ _ Hid1) as (t2 & Hid2 & Hev2).
    exists t2. split; [exact Hid2|]. by eapply evolves_trans.
Qed.

(** The deposit of the failing run of C8 keeps its amount and its closing
    snapshot through the two webhook events. *)
Lemma row_evolution_witness :
  exists t',
    transactions (run customer_of succeeded_then_failed (fresh [])) !! 0%nat
      = Some t'
    /\ amount t' = 5000 /\ balance_before t' = Some 0.
Proof.
  edestruct (row_evolution customer_of (drop 1 succeeded_then_failed)
               (run customer_of (take 1 succeeded_then_failed) (fresh []))
               0)
    as (t' & Hid & (_ & _ & Hamt & _ & _ & _ & _ & _ & Hbb) & _);
    [reflexivity|].
  exists t'. split; [exact Hid|]. split; [exact Hamt | exact Hbb].
Defined.

(** ** Where overdrafts come from *)

Section Covered.

Variable new_customer_id : nat -> string.

Implicit Types (s : Store) (t : WalletTransaction) (w : UserWallet).

Lemma covered_fresh banks : covered (fresh banks).
Proof. split; [by intros u w H | constructor]. Qed.

Lemma covered_save_wallet s u w :
  covered s -> 0 <= available_balance w -> covered (save_wallet u w s).
Proof. intros [Hs Hr] Hw. split; [by apply solvent_save_wallet | done]. Qed.

Lemma covered_create_transaction s t :
  covered s -> backed t -> covered (create_transaction t s).1.
Proof.
  intros [Hs Hr] Ht. split; [done|]. simpl.
  apply Forall_app. split; [done|]. by constructor.
Qed.

Lemma covered_save_transaction s id t :
  covered s -> backed t -> covered (save_transaction id t s).
Proof. intros [Hs Hr] Ht. split; [done|]. simpl. by apply Forall_insert. Qed.

Lemma covered_get_or_create_wallet s user :
  covered s ->
  let '(s1, w1) := WalletService.get_or_create_wallet new_customer_id user s in
  covered s1 /\ 0 <= available_balance w1.
Proof.
  intros [Hs Hr].
  pose proof (solvent_get_or_create_wallet new_customer_id s user Hs) as H.
  pose proof (get_or_create_wallet_spec new_customer_id user s) as G.
  destruct (WalletService.get_or_create_wallet new_customer_id user s)
    as [s1 w1].
  destruct H as [Hs1 Hw1]. destruct G as (_ & _ & Htx & _).
  split; [|done]. split; [done|]. by rewrite Htx.
Qed.

Lemma covered_row s id t : covered s -> transactions s !! id = Some t -> backed t.
Proof. intros [_ Hr] Hid. by eapply Forall_lookup_1 in Hr. Qed.

Lemma covered_complete_deposit s id charge now :
  covered s -> covered (WalletService.complete_deposit id charge now s).1.
Proof.
  intros Hs. unfold WalletService.complete_deposit, get_transaction_of_type.
  destruct (transactions s !! id) as [t|] eqn:Hid; [|done].
  destruct (decide _) as [Hty|]; [|done].
  destruct (bool_decide _); [|done]. simpl.
  destruct (wallets s !! wallet t) as [w|] eqn:Hw; [|done]. simpl.
  destruct (covered_row _ _ _ Hs Hid) as [Hamt Hnet].
  assert (0 <= available_balance w) by (by eapply (proj1 Hs)).
  apply covered_save_transaction; [apply covered_save_wallet|]; try done.
  simpl. specialize (Hnet Hty). lia.
Qed.

Ltac cover :=
  repeat first
    [ apply covered_save_transaction
    | apply covered_create_transaction
    | apply covered_save_wallet ];
  try done; try (split; simpl; [lia | done]); simpl; try lia.

Lemma covered_step s o :
  covered s -> safe_call o -> covered (step new_customer_id s o).
Proof.
  intros Hs Hsafe. destruct o; simpl in *; try done.
  - unfold WalletService.create_deposit_intent.
    pose proof (covered_get_or_create_wallet s user Hs) as H.
    destruct (WalletService.get_or_create_wallet _ user s) as [s1 w1].
    destruct H as [Hs1 Hw1].
    assert (Hback : forall t,
      amount t = amt -> transaction_type t = ty_deposit ->
      platform_fee t =
        to_cents (dec_mul (dec_of_cents amt)
                    {| coefficient := 1; places := 2 |}) ->
      stripe_fee t =
        to_cents (dec_add
                    (dec_mul (dec_of_cents amt)
                       {| coefficient := 29; places := 3 |})
                    {| coefficient := 30; places := 2 |}) ->
      backed t).
    { intros t Hamt Hty Hp Hsf. rewrite <- Hamt in Hp, Hsf.
      destruct (estimated_net_amount t Hp Hsf) as (_ & _ & _ & Hneg).
      split; [lia|]. intros _. lia. }
    destruct reply; simpl;
      (apply covered_save_transaction;
       [apply covered_create_transaction|]; [done | |]); by apply Hback.
  - by apply covered_complete_deposit.
  - unfold WalletService.escrow_deposit.
    pose proof (covered_get_or_create_wallet s user Hs) as H.
    destruct (WalletService.get_or_create_wallet _ user s) as [s1 w1].
    destruct H as [Hs1 Hw1]. unfold move_to_escrow, can_place_in_escrow.
    destruct (amt <=? available_balance w1) eqn:Hle; simpl; [|done].
    apply Z.leb_le in Hle. cover.
  - unfold WalletService.release_escrow.
    pose proof (covered_get_or_create_wallet s user Hs) as H.
    destruct (WalletService.get_or_create_wallet _ user s) as [s1 w1].
    destruct H as [Hs1 Hw1]. unfold release_from_escrow.
    destruct (escrow_balance w1 <? amt); simpl; [done|].
    destruct to_available; cover.
  - unfold WalletService.shipping_payment.
    pose proof (covered_get_or_create_wallet s user Hs) as H.
    destruct (WalletService.get_or_create_wallet _ user s) as [s1 w1].
    destruct H as [Hs1 Hw1]. unfold can_withdraw.
    destruct (amt <=? available_balance w1) eqn:Hle; simpl; [|done].
    apply Z.leb_le in Hle. cover.
  - unfold WalletService.create_withdrawal.
    pose proof (covered_get_or_create_wallet s user Hs) as H.
    destruct (WalletService.get_or_create_wallet _ user s) as [s1 w1].
    destruct H as [Hs1 Hw1].
    destruct (negb (can_withdraw w1 amt)); simpl; [done|].
    destruct bank as [b|];
      [destruct (get_bank_account s1 b user)
      |destruct (default_bank_account s1 user)]; simpl; try done; cover.
  - unfold WalletService.refund_transaction.
    destruct (transactions s !! id) as [t|] eqn:Hid; [|done].
    destruct (wallets s !! wallet t) as [w|] eqn:Hw; [|done]. simpl.
    destruct (covered_row _ _ _ Hs Hid) as [Hamt Hnet].
    assert (0 <= available_balance w) by (by eapply (proj1 Hs)).
    cover.
  - destruct d as [| |[[id|] charge|[id|]|]]; simpl; try done.
    + pose proof (covered_complete_deposit s id charge now Hs) as H.
      by destruct (WalletService.complete_deposit id charge now s) as [s' []].
    + destruct (transactions s !! id) as [t|] eqn:Hid; [|done]. simpl.
      apply covered_save_transaction; [done|].
      by apply (covered_row _ _ _ Hs Hid).
Qed.

Lemma covered_run ops s :
  covered s -> Forall safe_call ops -> covered (run new_customer_id ops s).
Proof.
  revert s. induction ops as [|o ops IH]; intros s Hs Hall; [done|].
  apply Forall_cons in Hall as [Ho Hall]. simpl.
  apply IH; [|done]. by apply covered_step.
Qed.

End Covered.

(** X13. Only the completion of a withdrawal overdraws a wallet.  After
    any sequence of calls on a new database that contains no
    [complete_withdrawal], with positive amounts and deposits of at least
    $0.31, every wallet has [available_balance >= 0] -- refunds, repeated
    refunds and webhook events included. *)
Theorem only_withdrawal_completion_overdraws
    (new_customer_id : nat -> string) (ops : list Op)
    (banks : list BankAccount) (u : nat) (w : UserWallet) :
  Forall safe_call ops ->
  wallets (run new_customer_id ops (fresh banks)) !! u = Some w ->
  0 <= available_balance w.
Proof.
  intros Hall.
  apply (covered_run new_customer_id ops (fresh banks) (covered_fresh banks)
           Hall).
Qed.

(** The failing run of C1 without its last call leaves $45.80. *)
Lemma only_withdrawal_completion_overdraws_witness :
  0 <= available_balance
         {| stripe_customer_id := Some "cus_alice";
            available_balance := 4580;
            escrow_balance := 0;
            total_deposited := 10000;
            total_withdrawn := 0;
            total_shipping_paid := 5000;
            withdrawal_limit_daily := 100000;
            withdrawal_limit_monthly := 1000000 |}.
Proof.
  apply (only_withdrawal_completion_overdraws customer_of
           (take 4 overdraft_run) [first_bank] 1).
  - repeat constructor; simpl; lia.
  - reflexivity.
Defined.

(** ** Payment methods *)

Section PaymentMethods.

Implicit Types (p x y : PaymentMethod) (l : list PaymentMethod).

Lemma new_pm_id_fresh l x : x ∈ l -> pm_id x <> new_pm_id l.
Proof.
  intros Hx. unfold new_pm_id.
  assert (pm_id x ≤ max_list (pm_id <$> l))%nat; [|lia].
  apply max_list_elem_of_le. by apply list_elem_of_fmap_2.
Qed.

Lemma existsb_false_elem {A} (f : A -> bool) (l0 : list A) (a : A) :
  existsb f l0 = false -> a ∈ l0 -> f a = false.
Proof.
  intros H Ha. destruct (f a) eqn:Hf; [|done].
  assert (existsb f l0 = true); [|congruence].
  apply existsb_exists. exists a. split; [by apply list_elem_of_In | done].
Qed.

Lemma existsb_true_elem {A} (f : A -> bool) (l0 : list A) :
  existsb f l0 = true -> exists a : A, a ∈ l0 /\ f a = true.
Proof.
  intros H. apply existsb_exists in H as (a & Ha & Hf).
  exists a. split; [by apply list_elem_of_In | done].
Qed.

(** Rows are demoted: keys stay, defaults can only go. *)
Lemma demote_ids (c : PaymentMethod -> bool) l :
  pm_id <$> ((fun x => if c x then pm_set_default x false else x) <$> l)
  = pm_id <$> l.
Proof.
  rewrite <- list_fmap_compose. apply list_fmap_ext.
  intros i x _. simpl. by destruct (c x).
Qed.

Lemma demote_default (c : PaymentMethod -> bool) l y :
  y ∈ (fun x => if c x then pm_set_default x false else x) <$> l ->
  pm_is_default y = true -> y ∈ l /\ c y = false.
Proof.
  intros Hy Hd. apply list_elem_of_fmap in Hy as (x & -> & Hx).
  destruct (c x) eqn:Hc; [done|]. by rewrite Hc.
Qed.

Lemma one_default_demote (c : PaymentMethod -> bool) l :
  one_default l ->
  one_default ((fun x => if c x then pm_set_default x false else x) <$> l).
Proof.
  intros [Hnd Hone]. split; [by rewrite demote_ids|].
  intros x y Hx Hy Hu Hdx Hdy.
  apply demote_default in Hx as [Hx _]; [|done].
  apply demote_default in Hy as [Hy _]; [|done].
  by apply Hone.
Qed.

(** Two rows of a table with distinct keys that carry the same key are the
    same row. *)
Lemma same_key_same_row l x y :
  NoDup (pm_id <$> l) -> x ∈ l -> y ∈ l -> pm_id x = pm_id y -> x = y.
Proof.
  intros Hnd Hx Hy Hid.
  apply list_elem_of_lookup in Hx as [i Hi].
  apply list_elem_of_lookup in Hy as [j Hj].
  assert (i = j).
  { eapply NoDup_lookup; [exact Hnd| |].
    - by rewrite list_lookup_fmap, Hi.
    - by rewrite list_lookup_fmap, Hj, Hid. }
  subst. congruence.
Qed.

(** [save] keeps the keys distinct and at most one default per user,
    whatever object is saved. *)
Lemma one_default_save p l :
  one_default l -> one_default (PaymentMethod_save p l).
Proof.
  intros Hl. unfold PaymentMethod_save.
  set (l1 := if pm_is_default p
             then pm_clear_other_defaults (pm_user p) (pm_id p) l else l).
  assert (Hl1 : one_default l1).
  { subst l1. destruct (pm_is_default p); [|done].
    by apply one_default_demote. }
  assert (Hcleared : forall y, y ∈ l1 -> pm_is_default p = true ->
            pm_user y = pm_user p -> pm_is_default y = true ->
            pm_id y = pm_id p).
  { subst l1. intros y Hy Hp Hu Hd. rewrite Hp in Hy.
    apply demote_default in Hy as [_ Hc]; [|done].
    rewrite Hd, bool_decide_eq_true_2 in Hc by done. simpl in Hc.
    apply negb_false_iff, bool_decide_eq_true_1 in Hc. done. }
  clearbody l1. destruct Hl1 as [Hnd Hone]. unfold pm_write.
  destruct (existsb _ l1) eqn:Hex.
  - split.
    + rewrite <- list_fmap_compose.
      erewrite list_fmap_ext; [exact Hnd|].
      intros i x _. simpl. destruct (bool_decide (pm_id x = pm_id p)) eqn:E;
        [by apply bool_decide_eq_true_1 in E | done].
    + intros x y Hx Hy Hu Hdx Hdy.
      apply list_elem_of_fmap in Hx as (x0 & -> & Hx0).
      apply list_elem_of_fmap in Hy as (y0 & -> & Hy0).
      destruct (bool_decide (pm_id x0 = pm_id p)) eqn:Ex;
        destruct (bool_decide (pm_id y0 = pm_id p)) eqn:Ey; try done.
      * apply bool_decide_eq_false_1 in Ey.
        destruct Ey. by apply Hcleared.
      * apply bool_decide_eq_false_1 in Ex.
        destruct Ex. by apply Hcleared.
      * by apply Hone.
  - assert (Hfresh : forall y, y ∈ l1 -> pm_id y <> pm_id p).
    { intros y Hy. apply (existsb_false_elem _ _ _ Hex) in Hy.
      by apply bool_decide_eq_false_1 in Hy. }
    split.
    + rewrite fmap_app. apply NoDup_app. split; [done|]. split.
      * intros i Hi Hp. apply list_elem_of_singleton in Hp.
        apply list_elem_of_fmap in Hi as (y & -> & Hy). by eapply Hfresh.
      * apply NoDup_singleton.
    + intros x y Hx Hy Hu Hdx Hdy.
      apply elem_of_app in Hx as [Hx | Hx%list_elem_of_singleton];
        apply elem_of_app in Hy as [Hy | Hy%list_elem_of_singleton]; subst.
      * by apply Hone.
      * destruct (Hfresh x Hx). by apply Hcleared.
      * destruct (Hfresh y Hy). by apply Hcleared.
      * done.
Qed.

End PaymentMethods.

(** X14. At most one default payment method per user.  If the table has
    distinct keys and no user has two default methods, then this still holds
    after [PaymentMethod.save] of any object, after [add_payment_method]
    (whatever Stripe answers), after [remove_payment_method] and after the
    [set_default] action. *)
Theorem payment_methods_keep_one_default
    (new_customer_id : nat -> string) (l : list PaymentMethod) :
  one_default l ->
  (forall p, one_default (PaymentMethod_save p l))
  /\ (forall user stripe_id reply s,
        one_default
          (PaymentMethodService.add_payment_method new_customer_id user
             stripe_id reply s l).1.2)
  /\ (forall user id detach_error,
        one_default
          (PaymentMethodService.remove_payment_method user id detach_error
             l).1)
  /\ (forall user id, one_default (set_default user id l).1).
Proof.
  intros Hl. split; [intros p; by apply one_default_save|].
  split; [|split].
  - intros user stripe_id reply s.
    unfold PaymentMethodService.add_payment_method.
    destruct (WalletService.get_or_create_wallet _ user s) as [s1 w1].
    destruct reply; simpl; [by apply one_default_save | done].
  - intros user id detach_error.
    unfold PaymentMethodService.remove_payment_method.
    destruct (find _ l); [|done].
    destruct detach_error; [done|]. simpl.
    destruct Hl as [Hnd Hone]. split.
    + eapply sublist_NoDup; [exact Hnd|].
      apply fmap_sublist, sublist_filter.
    + intros x y Hx Hy. apply list_elem_of_filter in Hx as [_ Hx].
      apply list_elem_of_filter in Hy as [_ Hy]. by apply Hone.
  - intros user id. unfold set_default.
    destruct (find _ l); [|done]. simpl.
    apply one_default_save.
    apply (one_default_demote
             (fun x => bool_decide (pm_user x = user) && pm_is_default x)).
    exact Hl.
Qed.

(** A table with the default card of user 1 and a second card. *)
Lemma payment_methods_keep_one_default_witness :
  one_default (set_default 1 2 [visa; amex]).1
  /\ (set_default 1 2 [visa; amex]).1
     = [pm_set_default visa false; pm_set_default amex true].
Proof.
  assert (H : one_default [visa; amex]).
  { split.
    - simpl. apply NoDup_cons. split; [|apply NoDup_singleton].
      intros Hin. apply list_elem_of_singleton in Hin. discriminate.
    - intros x y Hx Hy _ Hdx Hdy.
      apply elem_of_cons in Hx as [-> | Hx%list_elem_of_singleton];
        apply elem_of_cons in Hy as [-> | Hy%list_elem_of_singleton];
        subst; try done. }
  destruct (payment_methods_keep_one_default customer_of [visa; amex] H)
    as (_ & _ & _ & Hset).
  split; [apply Hset | reflexivity].
Defined.



(** X16. [add_payment_method] appends.  When Stripe attaches the method,
    the table is the old table followed by one new active row of the user
    with a key no other row has; the row is the default exactly when the
    user had no row at all (active or not), and it carries the card's last
    four digits and brand only if its type is 'card'.  When Stripe refuses,
    the table is unchanged.  In both cases the ledger gets at most the
    user's wallet: no transaction is written. *)
Theorem add_payment_method_appends
    (new_customer_id : nat -> string) (user : nat) (stripe_id : string)
    (reply : StripeMethodReply) (s : Store) (l : list PaymentMethod) :
  let '(s', l', r) :=
    PaymentMethodService.add_payment_method new_customer_id user stripe_id
      reply s l in
  transactions s' = transactions s
  /\ match reply with
     | MethodError e => l' = l /\ r = MethodFailure e
     | MethodAttached type card_last4 card_brand =>
         exists p,
           l' = l ++ [p]
           /\ r = MethodAdded (pm_id p)
           /\ (forall x, x ∈ l -> pm_id x <> pm_id p)
           /\ pm_user p = user
           /\ stripe_payment_method_id p = stripe_id
           /\ payment_type p = type
           /\ pm_is_active p = true
           /\ (pm_is_default p = true <-> forall x, x ∈ l -> pm_user x <> user)
           /\ last_four p = (if decide (type = "card") then card_last4 else "")
           /\ brand p = (if decide (type = "card") then card_brand else "")
     end.
Proof.
  unfold PaymentMethodService.add_payment_method.
  pose proof (get_or_create_wallet_spec new_customer_id user s) as H.
  destruct (WalletService.get_or_create_wallet new_customer_id user s)
    as [s1 w1].
  destruct H as (_ & _ & Htx & _).
  destruct reply as [type card_last4 card_brand | e]; simpl; [|done].
  split; [done|].
  set (p := {| pm_id := new_pm_id l; pm_user := user;
               stripe_payment_method_id := stripe_id; payment_type := type;
               last_four := if bool_decide (type = "card")
                            then card_last4 else "";
               brand := if bool_decide (type = "card") then card_brand else "";
               pm_is_default :=
                 negb (existsb (fun x => bool_decide (pm_user x = user)) l);
               pm_is_active := true |}).
  assert (Hnone : pm_is_default p = true <->
                  forall x, x ∈ l -> pm_user x <> user).
  { simpl. rewrite negb_true_iff. split.
    - intros Hex x Hx Hu. apply (existsb_false_elem _ _ _ Hex) in Hx.
      by rewrite bool_decide_eq_true_2 in Hx.
    - intros Hall.
      destruct (existsb _ l) eqn:Hex; [|done].
      apply existsb_true_elem in Hex as (x & Hx & Hu).
      apply bool_decide_eq_true_1 in Hu. by destruct (Hall x Hx). }
  assert (Hsave : PaymentMethod_save p l = l ++ [p]).
  { unfold PaymentMethod_save.
    assert (Hclear : (if pm_is_default p
                      then pm_clear_other_defaults (pm_user p) (pm_id p) l
                      else l) = l).
    { destruct (pm_is_default p) eqn:Hd; [|done].
      unfold pm_clear_other_defaults.
      rewrite <- (list_fmap_id l) at 2. apply list_fmap_ext.
      intros i x Hx. apply list_elem_of_lookup_2 in Hx.
      rewrite bool_decide_eq_false_2; [done|]. simpl.
      by apply Hnone. }
    rewrite Hclear. unfold pm_write.
    destruct (existsb (fun x => bool_decide (pm_id x = pm_id p)) l) eqn:Hex;
      [|reflexivity].
    apply existsb_true_elem in Hex as (x & Hx & Hid).
    apply bool_decide_eq_true_1 in Hid.
    by destruct (new_pm_id_fresh l x Hx). }
  exists p. split; [exact Hsave|]. split; [done|].
  split; [intros x Hx; by apply new_pm_id_fresh|].
  do 4 (split; [done|]). split; [exact Hnone|].
  simpl. by destruct (decide (type = "card"));
    [rewrite bool_decide_eq_true_2 | rewrite bool_decide_eq_false_2].
Qed.

(** X17. [remove_payment_method].  A key that is not a method of the
    user is refused with 'Payment method not found', and a Stripe error on
    detaching is passed on; in both cases the table is unchanged.
    Otherwise exactly the row with the key is deleted.  No other row is
    promoted: if the deleted method was the user's default, the user is left
    without a default method. *)
Theorem remove_payment_method_effect
    (user id : nat) (detach_error : option string) (l : list PaymentMethod) :
  one_default l ->
  let '(l', r) :=
    PaymentMethodService.remove_payment_method user id detach_error l in
  ((forall x, x ∈ l -> pm_id x = id -> pm_user x <> user) ->
   l' = l /\ r = MethodFailure "Payment method not found")
  /\ (forall p, p ∈ l -> pm_id p = id -> pm_user p = user ->
      match detach_error with
      | Some e => l' = l /\ r = MethodFailure e
      | None =>
          r = MethodRemoved
          /\ (forall x, x ∈ l' <-> x ∈ l /\ x <> p)
          /\ (pm_is_default p = true ->
              forall x, x ∈ l' -> pm_user x = user -> pm_is_default x = false)
      end).
Proof.
  intros [Hnd Hone]. unfold PaymentMethodService.remove_payment_method.
  destruct (find _ l) as [q|] eqn:Hfind.
  - apply find_some in Hfind as [Hq Hf]. apply list_elem_of_In in Hq.
    apply andb_prop in Hf as [Hqid Hqu].
    apply bool_decide_eq_true_1 in Hqid. apply bool_decide_eq_true_1 in Hqu.
    assert (Hsame : forall p, p ∈ l -> pm_id p = id -> q = p).
    { intros p Hp Hid. eapply same_key_same_row; eauto. congruence. }
    destruct detach_error as [e|]; simpl.
    + split; [intros Hnot; by destruct (Hnot q Hq Hqid)|].
      by intros p Hp Hid Hu.
    + split; [intros Hnot; by destruct (Hnot q Hq Hqid)|].
      intros p Hp Hid Hu. rewrite <- (Hsame p Hp Hid).
      split; [done|]. split.
      * intros x. rewrite list_elem_of_filter. split.
        -- intros [Hx Hin]. split; [done|]. congruence.
        -- intros [Hin Hx]. split; [|done]. intros E. apply Hx.
           symmetry. by apply Hsame.
      * intros Hd x Hx Hxu. apply list_elem_of_filter in Hx as [Hx Hin].
        destruct (pm_is_default x) eqn:Hdx; [|done].
        assert (x = q) by (apply Hone; auto; congruence). congruence.
  - simpl. split; [done|]. intros p Hp Hid Hu.
    eapply find_none in Hfind; [|by apply list_elem_of_In].
    by rewrite !bool_decide_eq_true_2 in Hfind.
Qed.

(** Removing the default card of user 1 leaves the other card, which is
    not promoted. *)
Lemma remove_payment_method_effect_witness :
  PaymentMethodService.remove_payment_method 1 1 None [visa; amex]
  = ([amex], MethodRemoved)
  /\ forall x, x ∈ [amex] -> pm_user x = 1%nat -> pm_is_default x = false.
Proof.
  assert (H : one_default [visa; amex]).
  { split.
    - simpl. apply NoDup_cons. split; [|apply NoDup_singleton].
      intros Hin. apply list_elem_of_singleton in Hin. discriminate.
    - intros x y Hx Hy _ Hdx Hdy.
      apply elem_of_cons in Hx as [-> | Hx%list_elem_of_singleton];
        apply elem_of_cons in Hy as [-> | Hy%list_elem_of_singleton];
        subst; try done. }
  pose proof (remove_payment_method_effect 1 1 None [visa; amex] H) as Hr.
  change (PaymentMethodService.remove_payment_method 1 1 None [visa; amex])
    with ([amex], MethodRemoved) in Hr.
  destruct Hr as [_ Hr].
  destruct (Hr visa) as (_ & _ & Hnone);
    [by apply elem_of_cons; left | reflexivity | reflexivity |].
  split; [reflexivity|]. exact (Hnone eq_refl).
Defined.

(** ** Bank accounts *)

Section BankAccounts.

Implicit Types (b x : BankAccount) (l : list BankAccount).

Lemma find_unique {A} (f : A -> bool) (l0 : list A) (a : A) :
  a ∈ l0 -> f a = true ->
  (forall a', a' ∈ l0 -> f a' = true -> a' = a) ->
  find f l0 = Some a.
Proof.
  induction l0 as [|h l0 IH]; intros Hin Hf Huniq.
  - by apply elem_of_nil in Hin.
  - simpl. destruct (f h) eqn:Hh.
    + f_equal. apply Huniq; [by left | done].
    + apply IH; [|done|].
      * apply elem_of_cons in Hin as [-> | Hin]; [congruence | done].
      * intros a' Ha'. apply Huniq. by right.
Qed.

(** After [save], the saved account is in the table, and a default account
    of its user that is in the table is the saved account itself. *)
Lemma bank_account_save_rows b pos l :
  is_default b = true ->
  b ∈ BankAccount_save b pos l
  /\ forall x, x ∈ BankAccount_save b pos l ->
       bank_user x = bank_user b -> is_default x = true -> x = b.
Proof.
  intros Hd. unfold BankAccount_save. rewrite Hd.
  set (d := fun x => if bool_decide (bank_user x = bank_user b) && is_default x
                        && negb (bool_decide (bank_id x = bank_id b))
                     then bank_set_default x false else x).
  assert (Hdem : forall y, y ∈ d <$> l -> bank_user y = bank_user b ->
            is_default y = true -> bank_id y = bank_id b).
  { intros y Hy Hu Hdy. apply list_elem_of_fmap in Hy as (x & -> & Hx).
    unfold d in *.
    destruct (bool_decide (bank_user x = bank_user b) && is_default x
              && negb (bool_decide (bank_id x = bank_id b))) eqn:Hc;
      [done|].
    rewrite Hdy, bool_decide_eq_true_2 in Hc by done. simpl in Hc.
    by apply negb_false_iff, bool_decide_eq_true_1 in Hc. }
  clearbody d.
  destruct (existsb _ (d <$> l)) eqn:Hex.
  - split.
    + apply existsb_true_elem in Hex as (y & Hy & Hid).
      apply list_elem_of_fmap. exists y. by rewrite Hid.
    + intros x Hx Hu Hdx. apply list_elem_of_fmap in Hx as (y & -> & Hy).
      destruct (bool_decide (bank_id y = bank_id b)) eqn:E; [done|].
      apply bool_decide_eq_false_1 in E. destruct E. by apply Hdem.
  - split.
    + apply elem_of_app. right. by left.
    + intros x Hx Hu Hdx.
      assert (Hin : x ∈ d <$> l \/ x = b).
      { apply elem_of_app in Hx as [Hx | Hx].
        - left. rewrite <- (take_drop pos (d <$> l)).
          apply elem_of_app. by left.
        - apply elem_of_cons in Hx as [-> | Hx]; [by right|].
          left. rewrite <- (take_drop pos (d <$> l)).
          apply elem_of_app. by right. }
      destruct Hin as [Hin | ->]; [|done].
      pose proof (existsb_false_elem _ _ _ Hex Hin) as Hne.
      apply bool_decide_eq_false_1 in Hne. destruct Hne. by apply Hdem.
Qed.

End BankAccounts.

(** X18. A saved default account is where withdrawals go.  After
    [BankAccount.save] of an active account marked as default, wherever its
    key falls in the table, the account is the only default account of its
    user, the lookup of the user's default account finds it, and a
    withdrawal of an amount the wallet can bear, made without naming an
    account, is accepted and goes to it. *)
Theorem saved_default_account_receives_withdrawals
    (new_customer_id : nat -> string) (s : Store) (b : BankAccount)
    (pos : nat) (amt : Z) (descr : string) :
  is_default b = true ->
  is_active b = true ->
  amt <= available_balance (default new_wallet (wallets s !! bank_user b)) ->
  let s' := with_bank_accounts s (BankAccount_save b pos (bank_accounts s)) in
  (forall x, x ∈ bank_accounts s' -> bank_user x = bank_user b ->
     is_default x = true -> x = b)
  /\ default_bank_account s' (bank_user b) = Some b
  /\ (WalletService.create_withdrawal new_customer_id (bank_user b) amt None
        descr s').2
     = WithdrawalStarted (length (transactions s)) (bank_name b).
Proof.
  intros Hd Hact Hle s'.
  destruct (bank_account_save_rows b pos (bank_accounts s) Hd) as [Hin Honly].
  assert (Hfind : forall s0, bank_accounts s0 = bank_accounts s' ->
            default_bank_account s0 (bank_user b) = Some b).
  { intros s0 Hb0. unfold default_bank_account. rewrite Hb0.
    apply find_unique; [exact Hin| |].
    - by rewrite Hd, Hact, bool_decide_eq_true_2.
    - intros x Hx Hf. apply andb_prop in Hf as [Hf _].
      apply andb_prop in Hf as [Hu Hdx].
      apply bool_decide_eq_true_1 in Hu. by apply Honly. }
  split; [exact Honly|]. split; [by apply Hfind|].
  unfold WalletService.create_withdrawal.
  pose proof (get_or_create_wallet_spec new_customer_id (bank_user b) s') as H.
  destruct (WalletService.get_or_create_wallet new_customer_id (bank_user b) s')
    as [s1 w1].
  destruct H as (_ & (Ha & _) & Htx & Hb & _).
  unfold can_withdraw. rewrite Ha. simpl.
  rewrite (proj2 (Z.leb_le _ _) Hle). simpl.
  rewrite (Hfind s1 Hb). simpl. by rewrite Htx.
Qed.

(** A second, default account is saved for user 1, in front of the first:
    the withdrawal of $40.00 now goes to it. *)
Lemma saved_default_account_receives_withdrawals_witness :
  (WalletService.create_withdrawal customer_of 1 4000 None ""
     (with_bank_accounts deposit_completed
        (BankAccount_save second_bank 0 [first_bank]))).2
  = WithdrawalStarted 1 "Second Bank".
Proof.
  destruct (saved_default_account_receives_withdrawals customer_of
              deposit_completed second_bank 0 4000 "")
    as (_ & _ & H); [reflexivity | reflexivity | vm_compute; discriminate |].
  exact H.
Defined.

(** The escrow balance of the overdrawn wallet of C1 is not negative. *)
Lemma escrow_balance_never_negative_witness :
  exists w,
    wallets (run customer_of overdraft_run (fresh [first_bank])) !! 1%nat
      = Some w
    /\ 0 <= escrow_balance w.
Proof.
  eexists. split; [reflexivity|].
  eapply (escrow_balance_never_negative customer_of overdraft_run
            [first_bank] 1).
  - repeat constructor; simpl; lia.
  - reflexivity.
Defined.
